(** * Median stopping rule of syne-tune: a shallow embedding

    The development follows
    [syne_tune/optimizer/schedulers/median_stopping_rule.py].

    Numbers.  Metric values, resource levels and the rank cutoff are Python
    numbers.  They are modelled as exact canonical rationals [Qc]: equality
    is Leibniz equality (one value, one representation, as for a float),
    the order is total, and [np.mean] and the rank quotient are computed
    without rounding.  NaN, infinities and rounding error of binary64 are
    outside this model.

    Effects.  The wrapper object is a record that is passed and returned
    explicitly.  The wrapped scheduler is an external object: every access
    to it is a node [Invoke] of the program tree [Prog], so that a theorem
    can say which calls a method makes, with which arguments, and what it
    does with the answers.  [exec] runs such a tree against any
    implementation of the scheduler interface.

    Objects.  The values of a result are taken as numbers throughout, and
    numbers are immutable.  Where it matters that a value can be a mutable
    object shared with the caller (line 92 multiplies in place), a second
    embedding, [on_trial_result_objects], keeps the arrays in a heap; on
    numbers the two embeddings agree.

    The development ends with three helpers of [syne_tune/util.py]:
    [is_increasing], [is_positive_integer] and [RegularCallback]. *)

From stdpp Require Import gmap strings list fin_maps functions numbers sorting.
From Stdlib Require Import QArith Qcanon.

Local Open Scope Qc_scope.

(* ===================================================================== *)
(** * Numbers *)
(* ===================================================================== *)

(** A numeric literal written as a fraction, [num / den]. *)
Definition frac (num : Z) (den : positive) : Qc := Q2Qc (num # den).

(** [float(n)] for a length or an index. *)
Definition Qc_of_nat (n : nat) : Qc := Qc_of_Z (Z.of_nat n).

(** [int(x)] of Python on a number: truncation towards zero. *)
Definition py_int (x : Qc) : Z := Z.quot (Qnum (this x)) (Z.pos (Qden (this x))).

(* ===================================================================== *)
(** * The numpy functions the scheduler calls *)
(* ===================================================================== *)

Module np.

(** [np.searchsorted(a, v)] with the default [side='left'].  numpy runs a
    binary search over the whole array,
<<
      min_idx = 0; max_idx = len(a)
      while min_idx < max_idx:
          mid = min_idx + ((max_idx - min_idx) >> 1)
          if a[mid] < v: min_idx = mid + 1
          else:          max_idx = mid
      return min_idx
>>
    The loop is unrolled over [fuel]; [searchsorted] gives it [length a]
    rounds, which [binsearch_left_fuel] shows to be enough on every array,
    sorted or not. *)
Fixpoint binsearch_left (fuel : nat) (a : list Qc) (v : Qc)
    (min_idx max_idx : nat) : nat :=
  match fuel with
  | O => min_idx
  | S fuel' =>
      if decide (min_idx < max_idx)%nat then
        let mid := (min_idx + (max_idx - min_idx) / 2)%nat in
        match a !! mid with
        | Some x =>
            if decide (x < v)
            then binsearch_left fuel' a v (S mid) max_idx
            else binsearch_left fuel' a v min_idx mid
        | None => min_idx
        end
      else min_idx
  end.

Definition searchsorted (a : list Qc) (v : Qc) : nat :=
  binsearch_left (length a) a v 0 (length a).

(** [np.insert(arr, obj, values)] for a scalar index and a scalar value:
    the value is placed before position [obj].  An index beyond the end
    raises [IndexError], rendered as [None].  (Negative indices do not
    occur: the index is a [nat].) *)
Definition insert (arr : list Qc) (obj : nat) (values : Qc) : option (list Qc) :=
  if decide (obj ≤ length arr)%nat
  then Some (take obj arr ++ values :: drop obj arr)
  else None.

(** [np.mean(a)] of a one-dimensional sequence: the sum divided by the
    number of elements.  (On the empty sequence numpy answers NaN; the
    model answers [0 / 0 = 0], and the scheduler never asks.)  The model
    is exact; numpy adds and divides in binary64 and rounds, so that the
    mean of several equal values need not be that value.  The mean of one
    value is exact in both. *)
Definition sum (a : list Qc) : Qc := foldr Qcplus 0 a.

Definition mean (a : list Qc) : Qc := sum a / Qc_of_nat (length a).

End np.

(* ===================================================================== *)
(** * The insertion point *)
(* ===================================================================== *)

(** The left insertion point of [v] in [a], as the numpy documentation
    words it for a sorted array: the number of elements strictly below
    [v]. *)
Definition count_below (a : list Qc) (v : Qc) : nat :=
  length (filter (λ x, x < v) a).

(* ===================================================================== *)
(** * Values exchanged with the tuner and the wrapped scheduler *)
(* ===================================================================== *)

(** A reported result: a dictionary from metric names to numbers. *)
Abbreviation Result := (gmap string Qc).

(** Modelled from the spec: the search-space types are not among the
    sources; a configuration (space) is a dictionary from hyperparameter
    names to a printed value (domain). *)
Abbreviation ConfigSpace := (gmap string string).

(** Modelled from the spec: [syne_tune.backend.trial_status.Trial] is not
    among the sources.  The spec gives a trial an integer [trial_id] and a
    configuration; the wrapper reads [trial_id] only. *)
Record Trial := { trial_id : Z; config : ConfigSpace }.

(** Modelled from the spec: [TrialSuggestion] is not among the sources; a
    suggestion carries the configuration to evaluate. *)
Record TrialSuggestion := { suggested_config : ConfigSpace }.

(** Modelled from the spec: [SchedulerDecision] is not among the sources;
    the spec lists the three decisions. *)
Inductive SchedulerDecision := CONTINUE | PAUSE | STOP.

(** The exceptions the wrapper itself can raise.  [TypeError] is that of a
    numpy array, which is not hashable, used as a dictionary key. *)
Inductive Exception :=
| KeyError (key : option string)
| IndexError
| TypeError.

(** The arguments of the one [logging.info] call, before formatting. *)
Record LogRecord := {
  log_new_metric : Qc;
  log_time_step : Qc;
  log_trial_id : Z;
  log_rank_percent : Z;
  log_cutoff_percent : Z
}.

Global Instance Trial_eq_dec : EqDecision Trial.
Proof. solve_decision. Defined.
Global Instance TrialSuggestion_eq_dec : EqDecision TrialSuggestion.
Proof. solve_decision. Defined.
Global Instance SchedulerDecision_eq_dec : EqDecision SchedulerDecision.
Proof. solve_decision. Defined.
Global Instance Exception_eq_dec : EqDecision Exception.
Proof. solve_decision. Defined.
Global Instance LogRecord_eq_dec : EqDecision LogRecord.
Proof. solve_decision. Defined.

(* ===================================================================== *)
(** * Programs that call the wrapped scheduler *)
(* ===================================================================== *)

(** The accesses the wrapper makes to [self.scheduler], each with the type
    of its answer. *)
Module Scheduler.
Inductive Call : Type → Type :=
| config_space : Call ConfigSpace
    (** [scheduler.config_space] *)
| getattr_metric : Call (option (option string))
    (** [hasattr(scheduler, "metric")] and, when it holds,
        [getattr(scheduler, "metric")]: [None] when there is no such
        attribute, [Some v] for an attribute of value [v] *)
| _suggest (trial_id : Z) : Call (option TrialSuggestion)
| on_trial_result (trial : Trial) (result : Result) : Call SchedulerDecision
| metric_names : Call (list string)
| metric_mode : Call string.
End Scheduler.

Inductive Prog (A : Type) : Type :=
| Ret (a : A)
| Raise (e : Exception)
| Invoke {X : Type} (c : Scheduler.Call X) (k : X → Prog A)
| Logging (r : LogRecord) (k : Prog A).
Arguments Ret {A} a.
Arguments Raise {A} e.
Arguments Invoke {A X} c k.
Arguments Logging {A} r k.

Fixpoint bind {A B} (p : Prog A) (f : A → Prog B) : Prog B :=
  match p with
  | Ret a => f a
  | Raise e => Raise e
  | Invoke c k => Invoke c (λ x, bind (k x) f)
  | Logging r k => Logging r (bind k f)
  end.

Global Instance Prog_ret : MRet Prog := @Ret.
Global Instance Prog_bind : MBind Prog := λ A B f p, bind p f.

(** One access to the wrapped scheduler. *)
Definition call {X} (c : Scheduler.Call X) : Prog X := Invoke c Ret.

(** ** Running a program against a scheduler *)

(** The interface [TrialScheduler] as far as the wrapper uses it, over the
    state [Sched] of the object that implements it.  Methods may change the
    state; attribute reads do not. *)
Class TrialScheduler (Sched : Type) := {
  impl_config_space : Sched → ConfigSpace;
  impl_getattr_metric : Sched → option (option string);
  impl_suggest : Sched → Z → option TrialSuggestion * Sched;
  impl_on_trial_result : Sched → Trial → Result → SchedulerDecision * Sched;
  impl_metric_names : Sched → list string * Sched;
  impl_metric_mode : Sched → string * Sched
}.

(** What an observer of the wrapped scheduler and of the log sees. *)
Inductive Event :=
| Called {X : Type} (c : Scheduler.Call X) (answer : X)
| Logged (r : LogRecord).

Definition answer `{TrialScheduler Sched} {X} (c : Scheduler.Call X) (s : Sched)
    : X * Sched :=
  match c in Scheduler.Call X return X * Sched with
  | Scheduler.config_space => (impl_config_space s, s)
  | Scheduler.getattr_metric => (impl_getattr_metric s, s)
  | Scheduler._suggest trial_id => impl_suggest s trial_id
  | Scheduler.on_trial_result trial result => impl_on_trial_result s trial result
  | Scheduler.metric_names => impl_metric_names s
  | Scheduler.metric_mode => impl_metric_mode s
  end.

(** [exec p s] runs [p] with the wrapped scheduler in state [s]: the
    outcome (an exception or a value), the scheduler's final state, and the
    events in the order they happened. *)
Fixpoint exec `{TrialScheduler Sched} {A} (p : Prog A) (s : Sched)
    : (Exception + A) * Sched * list Event :=
  match p with
  | Ret a => (inr a, s, [])
  | Raise e => (inl e, s, [])
  | Invoke c k =>
      let '(x, s') := answer c s in
      let '(r, s'', tr) := exec (k x) s' in
      (r, s'', Called c x :: tr)
  | Logging r k =>
      let '(o, s', tr) := exec k s in
      (o, s', Logged r :: tr)
  end.

(* ===================================================================== *)
(** * MedianStoppingRule *)
(* ===================================================================== *)

(** The attributes of the object, except [self.scheduler], which is the
    external party of [Prog].  [trial_to_results] is created by [__init__]
    only when [running_average] holds and is read only then; it is the
    empty dictionary otherwise.  [sorted_results] and [trial_to_results]
    are [defaultdict(list)]. *)
Record MedianStoppingRule := {
  config_space : ConfigSpace;
  metric : option string;
  sorted_results : gmap Qc (list Qc);
  resource_attr : string;
  rank_cutoff : Qc;
  grace_time : option Z;
  min_samples_required : option Z;
  running_average : bool;
  trial_to_results : gmap Z (list Qc);
  mode : string
}.

Global Instance MedianStoppingRule_eq_dec : EqDecision MedianStoppingRule.
Proof. solve_decision. Defined.

Definition set_sorted_results (self : MedianStoppingRule)
    (d : gmap Qc (list Qc)) : MedianStoppingRule :=
  {| config_space := config_space self; metric := metric self;
     sorted_results := d;
     resource_attr := resource_attr self; rank_cutoff := rank_cutoff self;
     grace_time := grace_time self;
     min_samples_required := min_samples_required self;
     running_average := running_average self;
     trial_to_results := trial_to_results self; mode := mode self |}.

Definition set_trial_to_results (self : MedianStoppingRule)
    (d : gmap Z (list Qc)) : MedianStoppingRule :=
  {| config_space := config_space self; metric := metric self;
     sorted_results := sorted_results self;
     resource_attr := resource_attr self; rank_cutoff := rank_cutoff self;
     grace_time := grace_time self;
     min_samples_required := min_samples_required self;
     running_average := running_average self;
     trial_to_results := d; mode := mode self |}.

(** [d[key]] on a [defaultdict(list)]: a missing key is first bound to the
    empty list.  The value read and the dictionary afterwards. *)
Definition defaultdict_getitem `{Countable K} (d : gmap K (list Qc)) (key : K)
    : list Qc * gmap K (list Qc) :=
  match d !! key with
  | Some l => (l, d)
  | None => ([], <[key := []]> d)
  end.

(** [result[key]] on a plain dictionary: [KeyError] on a missing key.  The
    key is [self.metric], which may be [None], or [self.resource_attr]. *)
Definition getitem (result : Result) (key : option string) : Prog Qc :=
  match key ≫= (result !!.) with
  | Some v => Ret v
  | None => Raise (KeyError key)
  end.

(** The local variables of [on_trial_result] when line 105 has run. *)
Record Locals := {
  new_metric : Qc;
  time_step : Qc;
  index : nat;
  normalized_rank : Qc
}.

Global Instance Locals_eq_dec : EqDecision Locals.
Proof. solve_decision. Defined.

(** [__init__], lines 61-84.  [scheduler] is the external party. *)
Definition __init__ (resource_attr : string) (running_average : bool)
    (metric : option string) (grace_time : option Z)
    (grace_population : option Z) (rank_cutoff : Qc)
    : Prog MedianStoppingRule :=
  config_space ← call Scheduler.config_space;
  metric ←
    match metric with
    | None =>
        attr ← call Scheduler.getattr_metric;
        mret (match attr with Some v => v | None => metric end)
    | Some _ => mret metric
    end;
  mode ← call Scheduler.metric_mode;
  mret {| config_space := config_space; metric := metric;
          sorted_results := ∅;
          resource_attr := resource_attr; rank_cutoff := rank_cutoff;
          grace_time := grace_time;
          min_samples_required := grace_population;
          running_average := running_average;
          trial_to_results := ∅; mode := mode |}.

(** [_suggest], lines 86-87. *)
Definition _suggest (self : MedianStoppingRule) (trial_id : Z)
    : Prog (option TrialSuggestion * MedianStoppingRule) :=
  s ← call (Scheduler._suggest trial_id);
  mret (s, self).

(** [grace_condition], lines 120-132.  The read of
    [self.sorted_results[time_step]] is a [defaultdict] read, hence the
    object is returned as well; [and] skips the read when
    [min_samples_required] is [None]. *)
Definition grace_condition (self : MedianStoppingRule) (time_step : Qc)
    : bool * MedianStoppingRule :=
  let '(few, self) :=
    match min_samples_required self with
    | None => (false, self)
    | Some n =>
        let '(l, d) := defaultdict_getitem (sorted_results self) time_step in
        (bool_decide (Z.of_nat (length l) < n)%Z, set_sorted_results self d)
    end in
  if few then (true, self)
  else
    match grace_time self with
    | Some g =>
        if bool_decide (time_step < Qc_of_Z g) then (true, self)
        else (false, self)
    | None => (false, self)
    end.

(** [on_trial_result], lines 90-105: read the result, average, insert,
    rank.  The values of [result] are numbers here, which are immutable:
    [new_metric *= -1] binds the local name to the product and leaves the
    result alone.  Values that are mutable objects are the matter of
    [on_trial_result_objects] below. *)
Definition on_trial_result_rank (self : MedianStoppingRule) (trial : Trial)
    (result : Result) : Prog (Locals * MedianStoppingRule) :=
  new_metric ← getitem result (metric self);
  let new_metric :=
    if decide (mode self = "max") then new_metric * - 1 else new_metric in
  time_step ← getitem result (Some (resource_attr self));
  let '(new_metric, self) :=
    if running_average self then
      let '(l, d) :=
        defaultdict_getitem (trial_to_results self) (trial_id trial) in
      let self :=
        set_trial_to_results self (<[trial_id trial := l ++ [new_metric]]> d) in
      let '(l, d) :=
        defaultdict_getitem (trial_to_results self) (trial_id trial) in
      (np.mean l, set_trial_to_results self d)
    else (new_metric, self) in
  let '(a, d) := defaultdict_getitem (sorted_results self) time_step in
  let self := set_sorted_results self d in
  let index := np.searchsorted a new_metric in
  let '(a, d) := defaultdict_getitem (sorted_results self) time_step in
  let self := set_sorted_results self d in
  match np.insert a index new_metric with
  | None => Raise IndexError
  | Some a' =>
      let self := set_sorted_results self (<[time_step := a']> (sorted_results self)) in
      let '(a, d) := defaultdict_getitem (sorted_results self) time_step in
      let self := set_sorted_results self d in
      let normalized_rank := Qc_of_nat index / Qc_of_nat (length a) in
      mret ({| new_metric := new_metric; time_step := time_step;
               index := index; normalized_rank := normalized_rank |}, self)
  end.

(** [on_trial_result], lines 107-118: continue with the wrapped scheduler,
    or stop. *)
Definition on_trial_result_decide (self : MedianStoppingRule) (trial : Trial)
    (result : Result) (loc : Locals)
    : Prog (SchedulerDecision * MedianStoppingRule) :=
  let '(grace, self) := grace_condition self (time_step loc) in
  if grace || bool_decide (normalized_rank loc ≤ rank_cutoff self) then
    decision ← call (Scheduler.on_trial_result trial result);
    mret (decision, self)
  else
    Logging {| log_new_metric := new_metric loc;
               log_time_step := time_step loc;
               log_trial_id := trial_id trial;
               log_rank_percent := py_int (normalized_rank loc * Qc_of_Z 100);
               log_cutoff_percent := py_int (rank_cutoff self * Qc_of_Z 100) |}
      (mret (STOP, self)).

(** [on_trial_result], lines 89-118. *)
Definition on_trial_result (self : MedianStoppingRule) (trial : Trial)
    (result : Result) : Prog (SchedulerDecision * MedianStoppingRule) :=
  '(loc, self) ← on_trial_result_rank self trial result;
  on_trial_result_decide self trial result loc.

(** [metric_names], lines 134-135, and [metric_mode], lines 137-138. *)
Definition metric_names (self : MedianStoppingRule)
    : Prog (list string * MedianStoppingRule) :=
  names ← call Scheduler.metric_names;
  mret (names, self).

Definition metric_mode (self : MedianStoppingRule)
    : Prog (string * MedianStoppingRule) :=
  m ← call Scheduler.metric_mode;
  mret (m, self).

(* ===================================================================== *)
(** * What one report does to the object *)
(* ===================================================================== *)

(** Reading the two [defaultdict]s: the list bound to a key, the empty list
    for a key not bound yet. *)
Definition recorded (self : MedianStoppingRule) (level : Qc) : list Qc :=
  default [] (sorted_results self !! level).

Definition history (self : MedianStoppingRule) (tid : Z) : list Qc :=
  default [] (trial_to_results self !! tid).

(** The reported value after the sign adjustment of lines 91-92. *)
Definition sign_adjusted (self : MedianStoppingRule) (raw : Qc) : Qc :=
  if decide (mode self = "max") then raw * - 1 else raw.

(** The value that is ranked and inserted (lines 95-98). *)
Definition effective_value (self : MedianStoppingRule) (tid : Z) (raw : Qc) : Qc :=
  if running_average self
  then np.mean (history self tid ++ [sign_adjusted self raw])
  else sign_adjusted self raw.

(** The array with [v] placed at its insertion point (lines 101-104). *)
Definition inserted (a : list Qc) (v : Qc) : list Qc :=
  take (np.searchsorted a v) a ++ v :: drop (np.searchsorted a v) a.

(** The object after a report of [raw] at [level] by trial [tid]. *)
Definition after_report (self : MedianStoppingRule) (tid : Z) (raw level : Qc)
    : MedianStoppingRule :=
  {| config_space := config_space self; metric := metric self;
     sorted_results :=
       <[level := inserted (recorded self level) (effective_value self tid raw)]>
         (sorted_results self);
     resource_attr := resource_attr self; rank_cutoff := rank_cutoff self;
     grace_time := grace_time self;
     min_samples_required := min_samples_required self;
     running_average := running_average self;
     trial_to_results :=
       if running_average self
       then <[tid := history self tid ++ [sign_adjusted self raw]]>
              (trial_to_results self)
       else trial_to_results self;
     mode := mode self |}.

(** The local variables at line 105 for that report. *)
Definition locals_of_report (self : MedianStoppingRule) (tid : Z) (raw level : Qc)
    : Locals :=
  let v := effective_value self tid raw in
  let i := np.searchsorted (recorded self level) v in
  {| new_metric := v; time_step := level; index := i;
     normalized_rank := Qc_of_nat i / Qc_of_nat (S (length (recorded self level))) |}.

(* ===================================================================== *)
(** * The decision of one call *)
(* ===================================================================== *)

(** The grace condition in the words of the spec, on the object as it is
    when [grace_condition] is called, that is after the insertion of the
    current value: fewer than [grace_population] observations recorded at
    the level, or the level below [grace_time].  A parameter that is
    [None] switches its half off. *)
Definition grace_holds (self : MedianStoppingRule) (level : Qc) : Prop :=
  (∃ n, min_samples_required self = Some n ∧
        (Z.of_nat (length (recorded self level)) < n)%Z) ∨
  (∃ g, grace_time self = Some g ∧ level < Qc_of_Z g).

Global Instance grace_holds_dec self level : Decision (grace_holds self level).
Proof.
  unfold grace_holds.
  destruct (min_samples_required self) as [n|], (grace_time self) as [g|].
  - destruct (decide (Z.of_nat (length (recorded self level)) < n)%Z);
      [left; left; eauto|].
    destruct (decide (level < Qc_of_Z g)); [left; right; eauto|].
    right. intros [(? & [= <-] & ?)|(? & [= <-] & ?)]; done.
  - destruct (decide (Z.of_nat (length (recorded self level)) < n)%Z);
      [left; left; eauto|].
    right. intros [(? & [= <-] & ?)|(? & [=] & ?)]; done.
  - destruct (decide (level < Qc_of_Z g)); [left; right; eauto|].
    right. intros [(? & [=] & ?)|(? & [= <-] & ?)]; done.
  - right. intros [(? & [=] & ?)|(? & [=] & ?)].
Defined.

(** The record written to the log when a trial is stopped. *)
Definition stop_record (self : MedianStoppingRule) (trial : Trial) (loc : Locals)
    : LogRecord :=
  {| log_new_metric := new_metric loc;
     log_time_step := time_step loc;
     log_trial_id := trial_id trial;
     log_rank_percent := py_int (normalized_rank loc * Qc_of_Z 100);
     log_cutoff_percent := py_int (rank_cutoff self * Qc_of_Z 100) |}.

(** The two shapes a call of [on_trial_result] can have. *)
Definition delegation (self' : MedianStoppingRule) (trial : Trial) (result : Result)
    : Prog (SchedulerDecision * MedianStoppingRule) :=
  Invoke (Scheduler.on_trial_result trial result) (λ d, Ret (d, self')).

Definition stopping (self' : MedianStoppingRule) (r : LogRecord)
    : Prog (SchedulerDecision * MedianStoppingRule) :=
  Logging r (Ret (STOP, self')).

(* ===================================================================== *)
(** * Sequences of reports *)
(* ===================================================================== *)

(** The tuner hands the reports to [on_trial_result] one after the other.
    A call that raises leaves the object as it was: the only exception of
    [on_trial_result] is the [KeyError] of lines 90 and 93, before anything
    is written (lemma [on_trial_result_rank_raises]).  [run] gives the
    outcome and the events of every call, the object and the wrapped
    scheduler at the end. *)
Fixpoint run `{TrialScheduler Sched} (self : MedianStoppingRule) (s : Sched)
    (reports : list (Trial * Result))
    : list ((Exception + SchedulerDecision) * list Event)
      * MedianStoppingRule * Sched :=
  match reports with
  | [] => ([], self, s)
  | (trial, result) :: reports =>
      let '(o, s, tr) := exec (on_trial_result self trial result) s in
      match o with
      | inl e =>
          let '(os, self, s) := run self s reports in
          ((inl e, tr) :: os, self, s)
      | inr (d, self) =>
          let '(os, self, s) := run self s reports in
          ((inr d, tr) :: os, self, s)
      end
  end.

(** The object after one report, the wrapped scheduler left aside: lines
    90-105 do not call it, and lines 107-118 write nothing. *)
Definition step (self : MedianStoppingRule) (report : Trial * Result)
    : MedianStoppingRule :=
  match on_trial_result_rank self report.1 report.2 with
  | Ret (_, self') => self'
  | _ => self
  end.

(** The locals of that report at line 105, if it gets there. *)
Definition step_locals (self : MedianStoppingRule) (report : Trial * Result)
    : option Locals :=
  match on_trial_result_rank self report.1 report.2 with
  | Ret (loc, _) => Some loc
  | _ => None
  end.

(** The values inserted at [level], in the order of the reports. *)
Fixpoint values_at (level : Qc) (self : MedianStoppingRule)
    (reports : list (Trial * Result)) : list Qc :=
  match reports with
  | [] => []
  | report :: reports =>
      match step_locals self report with
      | Some loc =>
          if decide (time_step loc = level)
          then new_metric loc :: values_at level (step self report) reports
          else values_at level (step self report) reports
      | None => values_at level (step self report) reports
      end
  end.

(** The sign-adjusted values trial [tid] has reported, in order, counting
    the reports that carry both keys. *)
Fixpoint reported_by (tid : Z) (self : MedianStoppingRule)
    (reports : list (Trial * Result)) : list Qc :=
  match reports with
  | [] => []
  | (trial, result) :: reports =>
      match metric self ≫= (result !!.), result !! resource_attr self with
      | Some raw, Some _ =>
          if decide (trial_id trial = tid)
          then sign_adjusted self raw :: reported_by tid self reports
          else reported_by tid self reports
      | _, _ => reported_by tid self reports
      end
  end.

(** What the wrapper does with a report, read off the program: it hands
    the report to the wrapped scheduler, it stops the trial, or it raises. *)
Inductive Verdict := Delegated | Stopped | Failed (e : Exception).

Global Instance Verdict_eq_dec : EqDecision Verdict.
Proof. solve_decision. Defined.

Definition verdict (p : Prog (SchedulerDecision * MedianStoppingRule))
    : option Verdict :=
  match p with
  | Invoke c _ =>
      match c with
      | Scheduler.on_trial_result _ _ => Some Delegated
      | _ => None
      end
  | Logging _ (Ret (STOP, _)) => Some Stopped
  | Raise e => Some (Failed e)
  | _ => None
  end.

(** The verdicts of a sequence of reports. *)
Fixpoint verdicts (self : MedianStoppingRule) (reports : list (Trial * Result))
    : list (option Verdict) :=
  match reports with
  | [] => []
  | report :: reports =>
      verdict (on_trial_result self report.1 report.2)
        :: verdicts (step self report) reports
  end.

(** The reports the wrapped scheduler was handed, read off the events. *)
Definition handed_over (tr : list Event) : list (Trial * Result) :=
  omap (λ ev,
          match ev with
          | Called c _ =>
              match c with
              | Scheduler.on_trial_result trial result => Some (trial, result)
              | _ => None
              end
          | Logged _ => None
          end) tr.

(** Every list of [sorted_results] is ascending. *)
Definition sorted_invariant (self : MedianStoppingRule) : Prop :=
  ∀ level, StronglySorted Qcle (recorded self level).

(* ===================================================================== *)
(** * A scheduler to run the wrapper against *)
(* ===================================================================== *)

(** It answers [on_trial_result] from a script, then with [CONTINUE]; its
    other answers are fixed. *)
Record Scripted := {
  script : list SchedulerDecision;
  scripted_space : ConfigSpace;
  scripted_metric : option (option string);
  scripted_mode : string
}.

Global Instance Scripted_scheduler : TrialScheduler Scripted := {|
  impl_config_space s := scripted_space s;
  impl_getattr_metric s := scripted_metric s;
  impl_suggest s _ := (None, s);
  impl_on_trial_result s _ _ :=
    match script s with
    | [] => (CONTINUE, s)
    | d :: ds =>
        (d, {| script := ds; scripted_space := scripted_space s;
               scripted_metric := scripted_metric s;
               scripted_mode := scripted_mode s |})
    end;
  impl_metric_names s :=
    (match scripted_metric s with Some (Some m) => [m] | _ => [] end, s);
  impl_metric_mode s := (scripted_mode s, s)
|}.

(** The decisions a scheduler gives on a sequence of reports when it is
    asked directly, and its state afterwards. *)
Fixpoint asked_directly `{TrialScheduler Sched} (s : Sched)
    (reports : list (Trial * Result)) : list SchedulerDecision * Sched :=
  match reports with
  | [] => ([], s)
  | (trial, result) :: reports =>
      let '(d, s) := impl_on_trial_result s trial result in
      let '(ds, s) := asked_directly s reports in
      (d :: ds, s)
  end.

(** ** The scenario of the spec *)

Definition scenario_object (ra : bool) : MedianStoppingRule :=
  {| config_space := ∅; metric := Some "loss"; sorted_results := ∅;
     resource_attr := "epoch"; rank_cutoff := frac 1 2;
     grace_time := Some 1%Z; min_samples_required := Some 5%Z;
     running_average := ra; trial_to_results := ∅; mode := "min" |}.

(** The same object over a scheduler of mode "max". *)
Definition scenario_object_max (ra : bool) : MedianStoppingRule :=
  {| config_space := ∅; metric := Some "loss"; sorted_results := ∅;
     resource_attr := "epoch"; rank_cutoff := frac 1 2;
     grace_time := Some 1%Z; min_samples_required := Some 5%Z;
     running_average := ra; trial_to_results := ∅; mode := "max" |}.

Definition scenario_trial (i : Z) : Trial := {| trial_id := i; config := ∅ |}.

Definition scenario_result (value level : Z) : Result :=
  <["loss" := Qc_of_Z value]> (<["epoch" := Qc_of_Z level]> ∅).

Definition scenario_first_five : list (Trial * Result) :=
  (λ i, (scenario_trial i, scenario_result 10 2)) <$> [0; 1; 2; 3; 4]%Z.

Definition scenario_sixth : Trial * Result :=
  (scenario_trial 5, scenario_result 20 2).

(** Two objects with the same parameters: all attributes but the two
    dictionaries (and the configuration space). *)
Definition same_parameters (self1 self2 : MedianStoppingRule) : Prop :=
  metric self1 = metric self2 ∧ resource_attr self1 = resource_attr self2 ∧
  mode self1 = mode self2 ∧ running_average self1 = running_average self2 ∧
  rank_cutoff self1 = rank_cutoff self2 ∧ grace_time self1 = grace_time self2 ∧
  min_samples_required self1 = min_samples_required self2.

(** The two runs of the counterexample to C9.  In both, trials 0..4 report
    1..5 at level 2; in the second, trial 7 has reported 100 at level 1
    before. *)
Definition run_without_past : list (Trial * Result) :=
  (λ i, (scenario_trial i, scenario_result (i + 1) 2)) <$> [0; 1; 2; 3; 4]%Z.

Definition run_with_past : list (Trial * Result) :=
  (scenario_trial 7, scenario_result 100 1) :: run_without_past.

(* ===================================================================== *)
(** * Counting reports *)
(* ===================================================================== *)

(** The reports of a sequence that get past lines 90 and 93 (both keys
    present) and are at [level]. *)
Definition accepted_at (level : Qc) (self : MedianStoppingRule)
    (reports : list (Trial * Result)) : list (Trial * Result) :=
  filter (λ report, is_Some (metric self ≫= (report.2 !!.)) ∧
                    report.2 !! resource_attr self = Some level) reports.

(** A report that carries both keys the object reads. *)
Definition carries_keys (self : MedianStoppingRule) (report : Trial * Result) : Prop :=
  is_Some (metric self ≫= (report.2 !!.)) ∧
  is_Some (report.2 !! resource_attr self).

(** The value a report puts into the list of [level] when the running
    average is off: its sign-adjusted metric, if it carries both keys and
    is at that level. *)
Definition raw_value_at (level : Qc) (self : MedianStoppingRule)
    (report : Trial * Result) : option Qc :=
  match metric self ≫= (report.2 !!.), report.2 !! resource_attr self with
  | Some raw, Some level' =>
      if decide (level' = level) then Some (sign_adjusted self raw) else None
  | _, _ => None
  end.

(** The same object with another mode, and a report with its metric value
    negated: the two sides of the comparison of mode "max" with the other
    modes. *)
Definition set_mode (self : MedianStoppingRule) (md : string) : MedianStoppingRule :=
  {| config_space := config_space self; metric := metric self;
     sorted_results := sorted_results self;
     resource_attr := resource_attr self; rank_cutoff := rank_cutoff self;
     grace_time := grace_time self;
     min_samples_required := min_samples_required self;
     running_average := running_average self;
     trial_to_results := trial_to_results self; mode := md |}.

Definition negated (m : string) (report : Trial * Result) : Trial * Result :=
  (report.1, alter Qcopp m report.2).

(* ===================================================================== *)
(** * syne_tune/util.py *)
(* ===================================================================== *)

Module util.

(** [is_increasing], lines 222-227:
    [all(x < y for x, y in zip(lst, lst[1:]))]. *)
Definition is_increasing (lst : list Qc) : bool :=
  forallb (λ xy, bool_decide (xy.1 < xy.2)) (zip lst (drop 1 lst)).

(** [is_positive_integer], lines 230-235:
    [all(x == int(x) and x >= 1 for x in lst)]. *)
Definition is_positive_integer (lst : list Qc) : bool :=
  forallb (λ x, bool_decide (x = Qc_of_Z (py_int x)) && bool_decide (1 ≤ x)) lst.

(** [RegularCallback], lines 37-54.  A [datetime] is a number of
    microseconds on the clock [datetime.now()] reads; the clock is read by
    the caller of the model, which passes the readings in.  [callback] is
    external: [__call__] reports whether it calls it. *)
Record RegularCallback := {
  time_last_recent_call : Z;
  frequency : Qc
}.

(** [timedelta.seconds] of the difference [later - earlier]: a
    [timedelta] is normalised to days, seconds in [[0, 86400)] and
    microseconds in [[0, 10^6)], the days alone carrying the sign. *)
Definition timedelta_seconds (later earlier : Z) : Z :=
  ((later - earlier) `div` 1000000) `mod` 86400.

(** [__init__], lines 45-48, with the reading of the clock. *)
Definition RegularCallback_init (now : Z) (call_seconds_frequency : Qc)
    : RegularCallback :=
  {| time_last_recent_call := now; frequency := call_seconds_frequency |}.

(** [__call__], lines 50-54, with the two readings of the clock, the
    second of which is used only if the callback is called.  The result
    tells whether [self.callback] is called. *)
Definition RegularCallback_call (self : RegularCallback) (now1 now2 : Z)
    : bool * RegularCallback :=
  let seconds_since_last_call := timedelta_seconds now1 (time_last_recent_call self) in
  if bool_decide (frequency self < Qc_of_Z seconds_since_last_call)
  then (true, {| time_last_recent_call := now2; frequency := frequency self |})
  else (false, self).

End util.

(** A scheduler and objects for the examples of the further properties. *)
Definition scenario_scheduler : Scripted :=
  {| script := []; scripted_space := ∅;
     scripted_metric := None; scripted_mode := "min" |}.

Definition scenario_object_cutoff_one : MedianStoppingRule :=
  {| config_space := ∅; metric := Some "loss"; sorted_results := ∅;
     resource_attr := "epoch"; rank_cutoff := 1;
     grace_time := None; min_samples_required := None;
     running_average := true; trial_to_results := ∅; mode := "min" |}.

(** The reports of a run that [on_trial_result] hands to the wrapped
    scheduler (line 111), in the order of the run. *)
Fixpoint delegated_reports (self : MedianStoppingRule)
    (reports : list (Trial * Result)) : list (Trial * Result) :=
  match reports with
  | [] => []
  | report :: reports =>
      let rest := delegated_reports (step self report) reports in
      match verdict (on_trial_result self report.1 report.2) with
      | Some Delegated => report :: rest
      | _ => rest
      end
  end.

(** The decisions the wrapped scheduler gave to [on_trial_result], read off
    the events. *)
Definition answers_given (tr : list Event) : list SchedulerDecision :=
  omap (λ ev,
          match ev with
          | Called c d =>
              match c in Scheduler.Call X return X → option SchedulerDecision with
              | Scheduler.on_trial_result _ _ => λ d, Some d
              | _ => λ _, None
              end d
          | Logged _ => None
          end) tr.

(* ===================================================================== *)
(** * Results whose values are objects *)
(* ===================================================================== *)

(** The embedding above takes the values of a result to be numbers.  In
    Python they are objects, and line 90 binds [new_metric] to the object
    the result holds, not to a copy.  A value is a number (an int, a
    float, a numpy scalar), which is immutable, or a reference to a numpy
    array of one number (zero-dimensional), which is mutable and can be
    reached from several places.  Arrays of other shapes, on which lines
    101-109 act elementwise, are left out. *)
Inductive PyValue :=
| PyNumber (q : Qc)
| PyArray (address : nat).

Abbreviation PyResult := (gmap string PyValue).

(** The number every array holds. *)
Abbreviation Heap := (nat → Qc).

Definition deref (heap : Heap) (v : PyValue) : Qc :=
  match v with
  | PyNumber q => q
  | PyArray address => heap address
  end.

(** What a reader of the dictionary sees. *)
Definition contents (heap : Heap) (result : PyResult) : Result :=
  deref heap <$> result.

(** [v *= c], line 92.  On a number the name is bound to the product, a
    new object.  On an array [*=] multiplies in place: the name stays bound
    to the array, and every holder of the array sees the product. *)
Definition imul (heap : Heap) (v : PyValue) (c : Qc) : PyValue * Heap :=
  match v with
  | PyNumber q => (PyNumber (q * c), heap)
  | PyArray address => (PyArray address, <[address := heap address * c]> heap)
  end.

(** The object, with the lists of [trial_to_results] holding the objects
    that were appended (line 97).  [attributes] has every other attribute;
    its own [trial_to_results] is not used.  The arrays of
    [sorted_results] are made by [np.insert], which copies the numbers. *)
Record MedianStoppingRuleObjects := {
  attributes : MedianStoppingRule;
  trial_to_results_objects : gmap Z (list PyValue)
}.

Definition set_attributes (self : MedianStoppingRuleObjects)
    (this : MedianStoppingRule) : MedianStoppingRuleObjects :=
  {| attributes := this;
     trial_to_results_objects := trial_to_results_objects self |}.

Definition set_trial_to_results_objects (self : MedianStoppingRuleObjects)
    (d : gmap Z (list PyValue)) : MedianStoppingRuleObjects :=
  {| attributes := attributes self; trial_to_results_objects := d |}.

Definition defaultdict_getitem_objects (d : gmap Z (list PyValue)) (key : Z)
    : list PyValue * gmap Z (list PyValue) :=
  match d !! key with
  | Some l => (l, d)
  | None => ([], <[key := []]> d)
  end.

(** Lines 100-105 on the number [new_metric] and the level [time_step];
    [None] is the [IndexError] of [np.insert]. *)
Definition on_trial_result_insert (self : MedianStoppingRule)
    (new_metric time_step : Qc) : option (Locals * MedianStoppingRule) :=
  let '(a, d) := defaultdict_getitem (sorted_results self) time_step in
  let self := set_sorted_results self d in
  let index := np.searchsorted a new_metric in
  let '(a, d) := defaultdict_getitem (sorted_results self) time_step in
  let self := set_sorted_results self d in
  a' ← np.insert a index new_metric;
  let self := set_sorted_results self (<[time_step := a']> (sorted_results self)) in
  let '(a, d) := defaultdict_getitem (sorted_results self) time_step in
  let self := set_sorted_results self d in
  let normalized_rank := Qc_of_nat index / Qc_of_nat (length a) in
  Some ({| new_metric := new_metric; time_step := time_step;
           index := index; normalized_rank := normalized_rank |}, self).

(** [on_trial_result], lines 90-118, on objects.  The outcome comes with
    the object and the heap as the call leaves them, also when it raises:
    line 92 runs before the [KeyError] of line 93, and line 97 before the
    [TypeError] of line 101, where an array, which is not hashable, is
    used as a key of [sorted_results].  [np.mean], [np.searchsorted] and
    [np.insert] read the numbers the objects hold at that moment.  The
    wrapped scheduler is given the dictionary the caller gave (line 111),
    and sees what it holds then. *)
Definition on_trial_result_objects (self : MedianStoppingRuleObjects)
    (trial : Trial) (result : PyResult) (heap : Heap)
    : Prog ((Exception + SchedulerDecision) * MedianStoppingRuleObjects * Heap) :=
  match metric (attributes self) ≫= (result !!.) with
  | None => Ret (inl (KeyError (metric (attributes self))), self, heap)
  | Some new_metric =>
      let '(new_metric, heap) :=
        if decide (mode (attributes self) = "max")
        then imul heap new_metric (- 1)
        else (new_metric, heap) in
      match result !! resource_attr (attributes self) with
      | None =>
          Ret (inl (KeyError (Some (resource_attr (attributes self)))), self, heap)
      | Some time_step =>
          let '(new_metric, self) :=
            if running_average (attributes self) then
              let '(l, d) :=
                defaultdict_getitem_objects (trial_to_results_objects self)
                  (trial_id trial) in
              let self :=
                set_trial_to_results_objects self
                  (<[trial_id trial := l ++ [new_metric]]> d) in
              let '(l, d) :=
                defaultdict_getitem_objects (trial_to_results_objects self)
                  (trial_id trial) in
              (np.mean (deref heap <$> l), set_trial_to_results_objects self d)
            else (deref heap new_metric, self) in
          match time_step with
          | PyArray _ => Ret (inl TypeError, self, heap)
          | PyNumber time_step =>
              match on_trial_result_insert (attributes self) new_metric time_step with
              | None => Ret (inl IndexError, self, heap)
              | Some (loc, this) =>
                  '(decision, this) ←
                    on_trial_result_decide this trial (contents heap result) loc;
                  mret (inr decision, set_attributes self this, heap)
              end
          end
      end
  end.

(** An object of numbers as an object of objects, and back: the numbers
    the histories hold. *)
Definition of_numbers (this : MedianStoppingRule) : MedianStoppingRuleObjects :=
  {| attributes := this;
     trial_to_results_objects := (λ l : list Qc, PyNumber <$> l) <$> trial_to_results this |}.

Definition to_numbers (heap : Heap) (self : MedianStoppingRuleObjects)
    : MedianStoppingRule :=
  set_trial_to_results (attributes self)
    ((λ l : list PyValue, deref heap <$> l) <$> trial_to_results_objects self).





(* ===================================================================== *)
(** * Facts about the numpy functions *)
(* ===================================================================== *)

Section searchsorted_facts.
Implicit Types (a : list Qc) (v x : Qc).

Lemma halving_mid (lo hi : nat) :
  (lo < hi)%nat → (lo ≤ lo + (hi - lo) / 2 < hi)%nat.
Proof.
  intros Hlt. split; [lia|].
  assert ((hi - lo) / 2 < hi - lo)%nat; [|lia].
  apply Nat.div_lt; lia.
Qed.

(** The search stays inside the interval it was given. *)
Lemma binsearch_left_range fuel a v lo hi :
  (lo ≤ hi)%nat →
  (lo ≤ np.binsearch_left fuel a v lo hi ≤ hi)%nat.
Proof.
  revert lo hi. induction fuel as [|fuel IH]; intros lo hi Hle; cbn [np.binsearch_left]; cbv zeta; [lia|].
  case_decide as Hlt; [|lia].
  destruct (halving_mid lo hi Hlt) as [Hm1 Hm2].
  set (mid := (lo + (hi - lo) / 2)%nat) in *. clearbody mid.
  destruct (a !! mid) as [x|]; [|lia].
  case_decide.
  - specialize (IH (S mid) hi). lia.
  - specialize (IH lo mid). lia.
Qed.

(** More rounds than the width of the interval change nothing: the loop
    has ended by then. *)
Lemma binsearch_left_fuel fuel fuel' a v lo hi :
  (hi ≤ length a)%nat → (hi - lo ≤ fuel)%nat → (hi - lo ≤ fuel')%nat →
  np.binsearch_left fuel a v lo hi = np.binsearch_left fuel' a v lo hi.
Proof.
  revert fuel' lo hi.
  induction fuel as [|fuel IH]; intros fuel' lo hi Hlen Hf Hf'.
  - destruct fuel' as [|fuel']; cbn [np.binsearch_left]; cbv zeta; [done|].
    case_decide; [lia|done].
  - destruct fuel' as [|fuel']; cbn [np.binsearch_left]; cbv zeta.
    + case_decide; [lia|done].
    + case_decide as Hlt; [|done].
      destruct (halving_mid lo hi Hlt) as [Hm1 Hm2].
      set (mid := (lo + (hi - lo) / 2)%nat) in *. clearbody mid.
      destruct (a !! mid) as [x|]; [|done].
      case_decide; apply IH; lia.
Qed.

(** On a sorted array the loop invariant of the binary search holds:
    everything left of [min_idx] is below [v], everything from [max_idx]
    on is not.  The answer then splits the array at the left insertion
    point. *)
Lemma binsearch_left_split fuel a v lo hi :
  StronglySorted Qcle a →
  (lo ≤ hi ≤ length a)%nat → (hi - lo ≤ fuel)%nat →
  Forall (λ x, x < v) (take lo a) →
  Forall (λ x, v ≤ x) (drop hi a) →
  let r := np.binsearch_left fuel a v lo hi in
  Forall (λ x, x < v) (take r a) ∧ Forall (λ x, v ≤ x) (drop r a).
Proof.
  intros Hsort. revert lo hi.
  induction fuel as [|fuel IH]; intros lo hi Hle Hf Hlo Hhi; cbn [np.binsearch_left]; cbv zeta.
  { assert (lo = hi) as -> by lia. done. }
  case_decide as Hlt; [|by assert (lo = hi) as -> by lia].
  destruct (halving_mid lo hi Hlt) as [Hm1 Hm2].
  set (mid := (lo + (hi - lo) / 2)%nat) in *. clearbody mid.
  destruct (a !! mid) as [x|] eqn:Hx; last first.
  { apply lookup_ge_None in Hx. lia. }
  rewrite <-(take_drop_middle a mid x Hx) in Hsort.
  apply StronglySorted_app in Hsort as (Hbelow & _ & Hrest).
  apply StronglySorted_cons in Hrest as [Habove _].
  case_decide as Hxv.
  - apply IH; [lia|lia| |done].
    rewrite (take_S_r a mid x Hx). apply Forall_app. split; [|by constructor].
    apply Forall_forall. intros y Hy.
    apply Qcle_lt_trans with x; [|done].
    apply Hbelow; [done|]. by left.
  - apply IH; [lia|lia|done|].
    rewrite (drop_S a x mid Hx). constructor; [by apply Qcnot_lt_le|].
    apply Forall_forall. intros y Hy.
    apply Qcle_trans with x; [by apply Qcnot_lt_le|].
    rewrite Forall_forall in Habove. by apply Habove.
Qed.

Lemma count_below_all a v : Forall (λ x, x < v) a → count_below a v = length a.
Proof.
  unfold count_below. induction 1 as [|x l Hx _ IH]; [done|].
  rewrite filter_cons_True by done. simpl. by rewrite IH.
Qed.

Lemma count_below_none a v : Forall (λ x, v ≤ x) a → count_below a v = 0%nat.
Proof.
  unfold count_below. induction 1 as [|x l Hx _ IH]; [done|].
  rewrite filter_cons_False; [done|]. by apply Qcle_not_lt.
Qed.

Lemma count_below_app a1 a2 v :
  count_below (a1 ++ a2) v = (count_below a1 v + count_below a2 v)%nat.
Proof. unfold count_below. by rewrite filter_app, length_app. Qed.

Lemma count_below_split a v r :
  Forall (λ x, x < v) (take r a) → Forall (λ x, v ≤ x) (drop r a) →
  (r ≤ length a)%nat →
  count_below a v = r.
Proof.
  intros Hlo Hhi Hr.
  rewrite <-(take_drop r a) at 1. rewrite count_below_app.
  rewrite count_below_all, count_below_none, length_take_le by done. lia.
Qed.

Lemma searchsorted_le_length a v : (np.searchsorted a v ≤ length a)%nat.
Proof.
  unfold np.searchsorted.
  pose proof (binsearch_left_range (length a) a v 0 (length a)). lia.
Qed.

(** [np.searchsorted] on a sorted array returns the left insertion
    point. *)
Lemma searchsorted_sorted a v :
  StronglySorted Qcle a → np.searchsorted a v = count_below a v.
Proof.
  intros Hsort. symmetry.
  destruct (binsearch_left_split (length a) a v 0 (length a)) as [H1 H2];
    [done|lia|lia|done|by rewrite drop_all|].
  apply count_below_split; [done|done|apply searchsorted_le_length].
Qed.

Lemma searchsorted_split a v :
  StronglySorted Qcle a →
  Forall (λ x, x < v) (take (np.searchsorted a v) a) ∧
  Forall (λ x, v ≤ x) (drop (np.searchsorted a v) a).
Proof.
  intros Hsort.
  apply (binsearch_left_split (length a) a v 0 (length a));
    [done|lia|lia|done|by rewrite drop_all].
Qed.
End searchsorted_facts.

(* ===================================================================== *)
(** * Facts about one report *)
(* ===================================================================== *)

Section one_report.
Implicit Types (self : MedianStoppingRule) (trial : Trial) (result : Result).

Lemma defaultdict_getitem_insert `{Countable K} (d : gmap K (list Qc)) key l :
  defaultdict_getitem (<[key := l]> d) key = (l, <[key := l]> d).
Proof. unfold defaultdict_getitem. by rewrite lookup_insert_eq. Qed.

Lemma defaultdict_getitem_fst `{Countable K} (d : gmap K (list Qc)) key :
  (defaultdict_getitem d key).1 = default [] (d !! key).
Proof. unfold defaultdict_getitem. by destruct (d !! key). Qed.

Lemma defaultdict_getitem_snd_insert `{Countable K} (d : gmap K (list Qc)) key l :
  <[key := l]> (defaultdict_getitem d key).2 = <[key := l]> d.
Proof.
  unfold defaultdict_getitem. destruct (d !! key); [done|].
  apply insert_insert_eq.
Qed.

Lemma defaultdict_getitem_snd_lookup `{Countable K} (d : gmap K (list Qc)) key :
  (defaultdict_getitem d key).2 !! key = Some (default [] (d !! key)).
Proof.
  unfold defaultdict_getitem. destruct (d !! key) eqn:E; simpl; [done|].
  apply lookup_insert_eq.
Qed.

Lemma length_inserted a v : length (inserted a v) = S (length a).
Proof.
  unfold inserted. pose proof (searchsorted_le_length a v).
  rewrite length_app, length_take_le by done. simpl. rewrite length_drop. lia.
Qed.

Lemma insert_searchsorted a v :
  np.insert a (np.searchsorted a v) v = Some (inserted a v).
Proof.
  unfold np.insert. pose proof (searchsorted_le_length a v).
  by rewrite decide_True.
Qed.

Lemma recorded_after_report self tid raw level :
  recorded (after_report self tid raw level) level =
  inserted (recorded self level) (effective_value self tid raw).
Proof. unfold recorded at 1. simpl. by rewrite lookup_insert_eq. Qed.

Lemma recorded_after_report_ne self tid raw level level' :
  level ≠ level' →
  recorded (after_report self tid raw level) level' = recorded self level'.
Proof. intros. unfold recorded. simpl. by rewrite lookup_insert_ne. Qed.

(** Lines 90-105 on a result that carries both keys: no exception, the
    locals and the object are the ones described above. *)
Lemma on_trial_result_rank_eq self trial result m raw level :
  metric self = Some m → result !! m = Some raw →
  result !! resource_attr self = Some level →
  on_trial_result_rank self trial result =
    Ret (locals_of_report self (trial_id trial) raw level,
         after_report self (trial_id trial) raw level).
Proof.
  intros Hm Hraw Hlevel. unfold on_trial_result_rank, getitem.
  rewrite Hm. simpl. rewrite Hraw, Hlevel. simpl.
  fold (sign_adjusted self raw).
  set (v0 := sign_adjusted self raw).
  set (self1 := if running_average self then _ else _).
  assert (self1 = (effective_value self (trial_id trial) raw,
                   set_trial_to_results self
                     (if running_average self
                      then <[trial_id trial := history self (trial_id trial) ++ [v0]]>
                             (trial_to_results self)
                      else trial_to_results self))) as ->.
  { subst self1. unfold effective_value, history. fold v0.
    destruct (running_average self); [|by destruct self].
    destruct (defaultdict_getitem (trial_to_results self) (trial_id trial))
      as [l d] eqn:E.
    assert (l = default [] (trial_to_results self !! trial_id trial)) as ->.
    { by rewrite <-defaultdict_getitem_fst, E. }
    assert (<[trial_id trial := default [] (trial_to_results self !! trial_id trial) ++ [v0]]> d
            = <[trial_id trial := default [] (trial_to_results self !! trial_id trial) ++ [v0]]>
                (trial_to_results self)) as ->.
    { replace d with (defaultdict_getitem (trial_to_results self) (trial_id trial)).2
        by (by rewrite E).
      apply defaultdict_getitem_snd_insert. }
    simpl. by rewrite defaultdict_getitem_insert. }
  set (v := effective_value self (trial_id trial) raw).
  cbn [sorted_results set_trial_to_results].
  destruct (defaultdict_getitem (sorted_results self) level) as [a d] eqn:E.
  assert (a = recorded self level) as ->.
  { unfold recorded. by rewrite <-defaultdict_getitem_fst, E. }
  assert (d !! level = Some (recorded self level)) as Hd.
  { replace d with (defaultdict_getitem (sorted_results self) level).2
      by (by rewrite E).
    apply defaultdict_getitem_snd_lookup. }
  cbn [sorted_results set_sorted_results].
  unfold defaultdict_getitem at 1. rewrite Hd.
  rewrite insert_searchsorted.
  cbn [sorted_results set_sorted_results].
  rewrite defaultdict_getitem_insert. simpl.
  rewrite length_inserted.
  assert (<[level := inserted (recorded self level) v]> d
          = <[level := inserted (recorded self level) v]> (sorted_results self)) as ->.
  { replace d with (defaultdict_getitem (sorted_results self) level).2
      by (by rewrite E).
    apply defaultdict_getitem_snd_insert. }
  unfold locals_of_report, after_report. fold v. fold v0. reflexivity.
Qed.

(** Lines 90-105 on a result that lacks a key: [KeyError], before
    anything is written. *)
Lemma on_trial_result_rank_KeyError_metric self trial result :
  metric self ≫= (result !!.) = None →
  on_trial_result_rank self trial result = Raise (KeyError (metric self)).
Proof. intros E. unfold on_trial_result_rank, getitem. by rewrite E. Qed.

Lemma on_trial_result_rank_KeyError_resource self trial result raw :
  metric self ≫= (result !!.) = Some raw →
  result !! resource_attr self = None →
  on_trial_result_rank self trial result =
    Raise (KeyError (Some (resource_attr self))).
Proof.
  intros E1 E2. unfold on_trial_result_rank, getitem.
  rewrite E1. simpl. by rewrite E2.
Qed.
(** The rank is a quotient [index / (n + 1)] with [index <= n]: it never
    reaches 1. *)
Lemma rank_quotient_lt_1 (i n : nat) :
  (i ≤ n)%nat → Qc_of_nat i / Qc_of_nat (S n) < 1.
Proof.
  intros Hle. unfold Qc_of_nat.
  assert (0 < Qc_of_Z (Z.of_nat (S n))) as Hpos.
  { rewrite <-Z2Qc_inj_0. apply (proj1 (Z2Qc_inj_lt _ _)). lia. }
  apply (Qcmult_lt_mono_pos_r _ _ _ Hpos).
  rewrite Qcmult_1_l. unfold Qcdiv. rewrite <-Qcmult_assoc, (Qcmult_comm (/ _)).
  rewrite Qcmult_inv_r, Qcmult_1_r.
  - apply (proj1 (Z2Qc_inj_lt _ _)). lia.
  - intros Heq. rewrite Heq in Hpos. by apply Qclt_not_eq in Hpos.
Qed.

Lemma normalized_rank_lt_1 self tid raw level :
  normalized_rank (locals_of_report self tid raw level) < 1.
Proof. apply rank_quotient_lt_1, searchsorted_le_length. Qed.
End one_report.

(* ===================================================================== *)
(** * Facts about one decision *)
(* ===================================================================== *)

Section one_decision.
Implicit Types (self : MedianStoppingRule) (trial : Trial) (result : Result).

Lemma set_sorted_results_id self : set_sorted_results self (sorted_results self) = self.
Proof. by destruct self. Qed.

Lemma grace_condition_iff self level :
  (grace_condition self level).1 = true ↔ grace_holds self level.
Proof.
  unfold grace_condition, grace_holds.
  destruct (defaultdict_getitem (sorted_results self) level) as [l d] eqn:E.
  assert (l = recorded self level) as ->.
  { unfold recorded. by rewrite <-defaultdict_getitem_fst, E. }
  destruct (min_samples_required self) as [n|]; [case_bool_decide|];
    cbn [grace_time set_sorted_results];
    destruct (grace_time self) as [g|]; try case_bool_decide; simpl;
    split; try done; eauto;
    intros [(? & [= <-] & ?)|(? & [= <-] & ?)]; done.
Qed.

Lemma grace_condition_bool self level :
  (grace_condition self level).1 = bool_decide (grace_holds self level).
Proof.
  pose proof (grace_condition_iff self level) as Hiff.
  destruct (grace_condition self level).1; symmetry.
  - apply bool_decide_eq_true. by apply Hiff.
  - apply bool_decide_eq_false. intros Hg. by apply Hiff in Hg.
Qed.

(** Once the level is bound in [sorted_results], as it is after the
    insertion, [grace_condition] leaves the object as it is. *)
Lemma grace_condition_state self level :
  is_Some (sorted_results self !! level) →
  (grace_condition self level).2 = self.
Proof.
  intros [l Hl]. unfold grace_condition, defaultdict_getitem. rewrite Hl.
  rewrite set_sorted_results_id.
  destruct (min_samples_required self); [case_bool_decide|];
    simpl; destruct (grace_time self); try case_bool_decide; done.
Qed.

Lemma on_trial_result_decide_eq self trial result loc :
  is_Some (sorted_results self !! time_step loc) →
  on_trial_result_decide self trial result loc =
    if bool_decide (grace_holds self (time_step loc) ∨
                    normalized_rank loc ≤ rank_cutoff self)
    then delegation self trial result
    else stopping self (stop_record self trial loc).
Proof.
  intros Hbound. unfold on_trial_result_decide.
  pose proof (grace_condition_bool self (time_step loc)) as Hb.
  pose proof (grace_condition_state self (time_step loc) Hbound) as Hs.
  destruct (grace_condition self (time_step loc)) as [grace self1].
  simpl in Hb, Hs. subst self1 grace.
  repeat case_bool_decide; simpl; try done; tauto.
Qed.

(** A call on a result that carries both keys. *)
Lemma on_trial_result_eq self trial result m raw level :
  metric self = Some m → result !! m = Some raw →
  result !! resource_attr self = Some level →
  let loc := locals_of_report self (trial_id trial) raw level in
  let self' := after_report self (trial_id trial) raw level in
  on_trial_result self trial result =
    if bool_decide (grace_holds self' level ∨
                    normalized_rank loc ≤ rank_cutoff self)
    then delegation self' trial result
    else stopping self' (stop_record self' trial loc).
Proof.
  intros Hm Hraw Hlevel loc self'. unfold on_trial_result.
  rewrite (on_trial_result_rank_eq _ _ _ _ _ _ Hm Hraw Hlevel).
  unfold mbind, Prog_bind. cbn [bind]. fold loc self'.
  rewrite on_trial_result_decide_eq; [done|].
  simpl. rewrite lookup_insert_eq. eauto.
Qed.

Lemma exec_delegation `{TrialScheduler Sched} self' trial result (s : Sched) :
  exec (delegation self' trial result) s =
    (inr ((impl_on_trial_result s trial result).1, self'),
     (impl_on_trial_result s trial result).2,
     [Called (Scheduler.on_trial_result trial result)
             (impl_on_trial_result s trial result).1]).
Proof. simpl. by destruct (impl_on_trial_result s trial result). Qed.

Lemma exec_stopping `{TrialScheduler Sched} self' r (s : Sched) :
  exec (stopping self' r) s = (inr (STOP, self'), s, [Logged r]).
Proof. done. Qed.
End one_decision.

(* ===================================================================== *)
(** * Sorted insertion *)
(* ===================================================================== *)

Section sorted_insertion.
Implicit Types (a : list Qc) (v : Qc).

Lemma inserted_Permutation a v : inserted a v ≡ₚ v :: a.
Proof.
  unfold inserted. rewrite <-Permutation_middle.
  by rewrite take_drop.
Qed.

Lemma inserted_sorted a v :
  StronglySorted Qcle a → StronglySorted Qcle (inserted a v).
Proof.
  intros Hsort. destruct (searchsorted_split a v Hsort) as [Hlo Hhi].
  unfold inserted. set (i := np.searchsorted a v) in *.
  rewrite <-(take_drop i a) in Hsort.
  apply StronglySorted_app in Hsort as (Hcross & Hl & Hr).
  apply StronglySorted_app. split_and!; [|done|].
  - intros x1 x2 Hx1 [->|Hx2]%elem_of_cons.
    + apply Qclt_le_weak. rewrite Forall_forall in Hlo. by apply Hlo.
    + by apply Hcross.
  - by apply StronglySorted_cons.
Qed.

(** All values at once: stdpp's merge sort for [≤]. *)
Lemma sorted_is_merge_sort a l :
  StronglySorted Qcle a → a ≡ₚ l → a = merge_sort Qcle l.
Proof.
  intros Hsort Hperm.
  apply (StronglySorted_unique Qcle); [done| |].
  - apply (StronglySorted_merge_sort Qcle).
  - by rewrite merge_sort_Permutation.
Qed.

(** One value after the other, from the empty array. *)
Lemma foldl_inserted_sorted a vs :
  StronglySorted Qcle a → StronglySorted Qcle (foldl inserted a vs).
Proof.
  revert a. induction vs as [|v vs IH]; intros a Hsort; simpl; [done|].
  by apply IH, inserted_sorted.
Qed.

Lemma foldl_inserted_Permutation a vs : foldl inserted a vs ≡ₚ a ++ vs.
Proof.
  revert a. induction vs as [|v vs IH]; intros a; simpl.
  - by rewrite app_nil_r.
  - rewrite IH, inserted_Permutation. by rewrite <-Permutation_middle.
Qed.

Lemma foldl_inserted_merge_sort vs : foldl inserted [] vs = merge_sort Qcle vs.
Proof.
  apply sorted_is_merge_sort.
  - apply foldl_inserted_sorted. constructor.
  - by rewrite foldl_inserted_Permutation.
Qed.

(** A value below everything goes to the front, on any array. *)
Lemma binsearch_left_front fuel a v hi :
  Forall (λ x, v ≤ x) a → np.binsearch_left fuel a v 0 hi = 0%nat.
Proof.
  intros Hall. revert hi.
  induction fuel as [|fuel IH]; intros hi; cbn [np.binsearch_left]; [done|].
  case_decide; [|done]. cbv zeta.
  destruct (a !! _) as [x|] eqn:Hx; [|done].
  rewrite decide_False; [apply IH|].
  apply Qcle_not_lt. rewrite Forall_forall in Hall.
  apply Hall. by eapply list_elem_of_lookup_2.
Qed.

Lemma searchsorted_front a v :
  Forall (λ x, v ≤ x) a → np.searchsorted a v = 0%nat.
Proof. apply binsearch_left_front. Qed.
End sorted_insertion.

(* ===================================================================== *)
(** * Facts about sequences of reports *)
(* ===================================================================== *)

Section reports.
Implicit Types (self : MedianStoppingRule) (trial : Trial) (result : Result).
Implicit Types (reports : list (Trial * Result)).

(** The three ways a call can go at lines 90 and 93. *)
Lemma report_cases self result :
  (∃ m raw level, metric self = Some m ∧ result !! m = Some raw ∧
                  result !! resource_attr self = Some level) ∨
  metric self ≫= (result !!.) = None ∨
  (∃ raw, metric self ≫= (result !!.) = Some raw ∧
          result !! resource_attr self = None).
Proof.
  destruct (metric self) as [m|] eqn:Hm; simpl; [|by right; left].
  destruct (result !! m) as [raw|] eqn:Hraw; [|by right; left].
  destruct (result !! resource_attr self) as [level|] eqn:Hlevel.
  - left. by exists m, raw, level.
  - right. right. by exists raw.
Qed.

(** Lines 90-105 raise nothing but [KeyError], and call nobody. *)
Lemma on_trial_result_rank_raises self trial result :
  (∃ loc self', on_trial_result_rank self trial result = Ret (loc, self')) ∨
  (∃ key, on_trial_result_rank self trial result = Raise (KeyError key)).
Proof.
  destruct (report_cases self result)
    as [(m & raw & level & Hm & Hraw & Hlevel)|[Hnone|(raw & Hraw & Hnone)]].
  - left. rewrite (on_trial_result_rank_eq _ _ _ _ _ _ Hm Hraw Hlevel). eauto.
  - right. rewrite on_trial_result_rank_KeyError_metric by done. eauto.
  - right. erewrite on_trial_result_rank_KeyError_resource by done. eauto.
Qed.

Lemma step_accepted self trial result m raw level :
  metric self = Some m → result !! m = Some raw →
  result !! resource_attr self = Some level →
  step self (trial, result) = after_report self (trial_id trial) raw level ∧
  step_locals self (trial, result) =
    Some (locals_of_report self (trial_id trial) raw level).
Proof.
  intros Hm Hraw Hlevel. unfold step, step_locals. simpl.
  by rewrite (on_trial_result_rank_eq _ _ _ _ _ _ Hm Hraw Hlevel).
Qed.

Lemma step_rejected self trial result :
  metric self ≫= (result !!.) = None ∨ result !! resource_attr self = None →
  step self (trial, result) = self ∧ step_locals self (trial, result) = None.
Proof.
  intros Hno. unfold step, step_locals. simpl.
  destruct (report_cases self result)
    as [(m & raw & level & Hm & Hraw & Hlevel)|[Hnone|(raw & Hraw & Hnone)]].
  - destruct Hno as [Hno|Hno]; [|congruence].
    rewrite Hm in Hno. simpl in Hno. congruence.
  - by rewrite on_trial_result_rank_KeyError_metric.
  - by erewrite on_trial_result_rank_KeyError_resource.
Qed.

Lemma step_same_parameters self report : same_parameters (step self report) self.
Proof.
  destruct report as [trial result].
  destruct (report_cases self result)
    as [(m & raw & level & Hm & Hraw & Hlevel)|[Hnone|(raw & Hraw & Hnone)]].
  - rewrite (proj1 (step_accepted _ _ _ _ _ _ Hm Hraw Hlevel)).
    by repeat split.
  - rewrite (proj1 (step_rejected self trial result (or_introl Hnone))).
    by repeat split.
  - rewrite (proj1 (step_rejected self trial result (or_intror Hnone))).
    by repeat split.
Qed.

Lemma foldl_step_same_parameters self reports :
  same_parameters (foldl step self reports) self.
Proof.
  revert self. induction reports as [|report reports IH]; intros self; simpl.
  - by repeat split.
  - specialize (IH (step self report)).
    pose proof (step_same_parameters self report).
    unfold same_parameters in *. intuition congruence.
Qed.

Lemma step_sorted_invariant self report :
  sorted_invariant self → sorted_invariant (step self report).
Proof.
  intros Hinv. destruct report as [trial result].
  destruct (report_cases self result)
    as [(m & raw & level & Hm & Hraw & Hlevel)|[Hnone|(raw & Hraw & Hnone)]].
  - rewrite (proj1 (step_accepted _ _ _ _ _ _ Hm Hraw Hlevel)).
    intros level'. destruct (decide (level = level')) as [<-|Hne].
    + rewrite recorded_after_report. apply inserted_sorted, Hinv.
    + rewrite recorded_after_report_ne by done. apply Hinv.
  - by rewrite (proj1 (step_rejected self trial result (or_introl Hnone))).
  - by rewrite (proj1 (step_rejected self trial result (or_intror Hnone))).
Qed.

Lemma foldl_step_sorted_invariant self reports :
  sorted_invariant self → sorted_invariant (foldl step self reports).
Proof.
  revert self. induction reports as [|report reports IH]; intros self Hinv;
    simpl; [done|].
  by apply IH, step_sorted_invariant.
Qed.

(** The list of a level holds what was there and what was inserted. *)
Lemma recorded_foldl_step self reports level :
  recorded (foldl step self reports) level
  ≡ₚ recorded self level ++ values_at level self reports.
Proof.
  revert self. induction reports as [|[trial result] reports IH]; intros self.
  { simpl. by rewrite app_nil_r. }
  cbn [foldl values_at]. rewrite IH. clear IH.
  destruct (report_cases self result)
    as [(m & raw & level' & Hm & Hraw & Hlevel)|[Hnone|(raw & Hraw & Hnone)]].
  - destruct (step_accepted self trial result _ _ _ Hm Hraw Hlevel) as [-> ->].
    cbn [time_step new_metric locals_of_report].
    case_decide as Hl.
    + subst level'. rewrite recorded_after_report, inserted_Permutation.
      by rewrite <-Permutation_middle.
    + by rewrite recorded_after_report_ne.
  - by destruct (step_rejected self trial result (or_introl Hnone)) as [-> ->].
  - by destruct (step_rejected self trial result (or_intror Hnone)) as [-> ->].
Qed.
End reports.

(* ===================================================================== *)
(** * Facts about runs against a scheduler *)
(* ===================================================================== *)

Section runs.
Context `{TrialScheduler Sched}.
Implicit Types (self : MedianStoppingRule) (trial : Trial) (result : Result).
Implicit Types (reports : list (Trial * Result)) (s : Sched).

(** Every call has one of three shapes, and [step] is its effect on the
    object. *)
Lemma on_trial_result_shape self trial result :
  on_trial_result self trial result
    = delegation (step self (trial, result)) trial result ∨
  (∃ r, on_trial_result self trial result
          = stopping (step self (trial, result)) r) ∨
  (∃ key, on_trial_result self trial result = Raise (KeyError key) ∧
          step self (trial, result) = self).
Proof.
  destruct (report_cases self result)
    as [(m & raw & level & Hm & Hraw & Hlevel)|[Hnone|(raw & Hraw & Hnone)]].
  - rewrite (on_trial_result_eq _ _ _ _ _ _ Hm Hraw Hlevel).
    rewrite (proj1 (step_accepted _ _ _ _ _ _ Hm Hraw Hlevel)).
    case_bool_decide; eauto.
  - right. right. exists (metric self).
    rewrite (proj1 (step_rejected self trial result (or_introl Hnone))).
    unfold on_trial_result.
    by rewrite on_trial_result_rank_KeyError_metric.
  - right. right. exists (Some (resource_attr self)).
    rewrite (proj1 (step_rejected self trial result (or_intror Hnone))).
    unfold on_trial_result.
    by erewrite on_trial_result_rank_KeyError_resource.
Qed.

Lemma run_cons self s trial result reports :
  run self s ((trial, result) :: reports) =
    let '(o, s', tr) := exec (on_trial_result self trial result) s in
    let '(os, self', s'') := run (step self (trial, result)) s' reports in
    ((sum_map id fst o, tr) :: os, self', s'').
Proof.
  cbn [run].
  destruct (on_trial_result_shape self trial result)
    as [->|[[r ->]|(key & -> & ->)]].
  - rewrite exec_delegation.
    by destruct (run _ _ reports) as [[os self'] s''].
  - rewrite exec_stopping.
    by destruct (run _ _ reports) as [[os self'] s''].
  - simpl. by destruct (run _ _ reports) as [[os self'] s''].
Qed.

(** The object at the end of a run does not depend on the scheduler. *)
Lemma run_object self s reports : (run self s reports).1.2 = foldl step self reports.
Proof.
  revert self s. induction reports as [|[trial result] reports IH];
    intros self s; [done|].
  rewrite run_cons.
  destruct (exec _ s) as [[o s'] tr].
  specialize (IH (step self (trial, result)) s').
  by destruct (run _ s' reports) as [[os self'] s''].
Qed.

(** While every report is delegated, the wrapper is transparent: the
    decisions, the scheduler's state and the reports it sees are those of
    the scheduler asked directly. *)
Lemma run_all_delegated self s reports :
  Forall (λ v, v = Some Delegated) (verdicts self reports) →
  (run self s reports).1.1.*1 = inr <$> (asked_directly s reports).1 ∧
  (run self s reports).2 = (asked_directly s reports).2 ∧
  handed_over (concat (run self s reports).1.1.*2) = reports.
Proof.
  revert self s. induction reports as [|[trial result] reports IH];
    intros self s Hall; [done|].
  cbn [verdicts] in Hall. apply Forall_cons in Hall as [Hv Hall].
  rewrite run_cons. cbn [asked_directly]. simpl in Hv.
  destruct (on_trial_result_shape self trial result)
    as [Heq|[[r Heq]|(key & Heq & _)]]; rewrite Heq in Hv; try done.
  rewrite Heq, exec_delegation.
  destruct (impl_on_trial_result s trial result) as [d s'] eqn:Ed.
  cbn [fst snd].
  specialize (IH (step self (trial, result)) s' Hall).
  destruct (run _ s' reports) as [[os self'] s''].
  destruct (asked_directly s' reports) as [ds s3].
  simpl in *. destruct IH as (IH1 & IH2 & IH3).
  split_and!; [by f_equal|done|by f_equal].
Qed.
End runs.

(* ===================================================================== *)
(** * The claims *)
(* ===================================================================== *)

(** C1.  A call of [on_trial_result] on a result that carries the metric
    and the resource key reaches line 105 with locals [loc] and object
    [self'].  If the grace condition holds there (fewer than
    [grace_population] values recorded at the level, the current one
    included, or the level below [grace_time]) or
    [normalized_rank <= rank_cutoff], the call is one call of the wrapped
    scheduler's [on_trial_result] on the same trial and result, and what
    that call returns is returned.  Otherwise the call returns [STOP] after
    one log record: the wrapped scheduler is not called and keeps its
    state. *)
Theorem on_trial_result_delegates_or_stops `{TrialScheduler Sched} (s : Sched)
    (self : MedianStoppingRule) (trial : Trial) (result : Result)
    (m : string) (raw level : Qc) :
  metric self = Some m → result !! m = Some raw →
  result !! resource_attr self = Some level →
  ∃ loc self',
    on_trial_result_rank self trial result = Ret (loc, self') ∧
    time_step loc = level ∧
    grace_condition self' level = (bool_decide (grace_holds self' level), self') ∧
    (grace_holds self' level ∨ normalized_rank loc ≤ rank_cutoff self' →
     on_trial_result self trial result = delegation self' trial result ∧
     exec (on_trial_result self trial result) s =
       (inr ((impl_on_trial_result s trial result).1, self'),
        (impl_on_trial_result s trial result).2,
        [Called (Scheduler.on_trial_result trial result)
                (impl_on_trial_result s trial result).1])) ∧
    (¬ (grace_holds self' level ∨ normalized_rank loc ≤ rank_cutoff self') →
     ∃ r,
       on_trial_result self trial result = stopping self' r ∧
       exec (on_trial_result self trial result) s = (inr (STOP, self'), s, [Logged r])).
Proof.
  intros Hm Hraw Hlevel.
  exists (locals_of_report self (trial_id trial) raw level),
         (after_report self (trial_id trial) raw level).
  pose proof (on_trial_result_eq _ trial _ _ _ _ Hm Hraw Hlevel) as Heq.
  cbv zeta in Heq.
  set (self' := after_report self (trial_id trial) raw level) in *.
  set (loc := locals_of_report self (trial_id trial) raw level) in *.
  split_and!.
  - by apply on_trial_result_rank_eq with m.
  - done.
  - rewrite (surjective_pairing (grace_condition self' level)).
    rewrite grace_condition_bool, grace_condition_state; [done|].
    subst self'. simpl. rewrite lookup_insert_eq. eauto.
  - intros Hyes. rewrite Heq, bool_decide_eq_true_2 by done.
    split; [done|apply exec_delegation].
  - intros Hno. rewrite Heq, bool_decide_eq_false_2 by done.
    eexists. split; [done|apply exec_stopping].
Qed.

(** The first report of the scenario meets the premises of C1. *)
Lemma on_trial_result_delegates_or_stops_witness :
  metric (scenario_object true) = Some "loss" ∧
  scenario_result 10 2 !! "loss" = Some (Qc_of_Z 10) ∧
  scenario_result 10 2 !! resource_attr (scenario_object true) = Some (Qc_of_Z 2) ∧
  ∃ loc self',
    on_trial_result_rank (scenario_object true) (scenario_trial 0)
      (scenario_result 10 2) = Ret (loc, self') ∧
    time_step loc = Qc_of_Z 2.
Proof.
  split_and!; [reflexivity..|].
  destruct (on_trial_result_delegates_or_stops
              {| script := [PAUSE]; scripted_space := ∅;
                 scripted_metric := None; scripted_mode := "min" |}
              (scenario_object true) (scenario_trial 0) (scenario_result 10 2)
              "loss" (Qc_of_Z 10) (Qc_of_Z 2))
    as (loc & self' & Hrank & Hlevel & _); [reflexivity..|].
  exists loc, self'. by split.
Defined.

(** The sixth call of the scenario, on the object the first five reports
    leave. *)
Lemma scenario_sixth_call (ra : bool) :
  ∃ loc self6 r,
    on_trial_result_rank (foldl step (scenario_object ra) scenario_first_five)
      scenario_sixth.1 scenario_sixth.2 = Ret (loc, self6) ∧
    new_metric loc = Qc_of_Z 20 ∧
    index loc = 5%nat ∧
    recorded self6 (Qc_of_Z 2) = Qc_of_Z <$> [10; 10; 10; 10; 10; 20]%Z ∧
    normalized_rank loc = frac 5 6 ∧
    rank_cutoff self6 < normalized_rank loc ∧
    ¬ grace_holds self6 (Qc_of_Z 2) ∧
    on_trial_result (foldl step (scenario_object ra) scenario_first_five)
      scenario_sixth.1 scenario_sixth.2 = stopping self6 r.
Proof.
  destruct ra; eexists _, _, _;
    (split; [vm_compute; reflexivity|]);
    (split; [apply Qc_is_canon; vm_compute; reflexivity|]);
    (split; [vm_compute; reflexivity|]);
    (split; [compute_done|]);
    (split; [apply Qc_is_canon; vm_compute; reflexivity|]);
    (split; [vm_compute; reflexivity|]);
    (split; [apply (bool_decide_eq_false (grace_holds _ _));
             vm_compute; reflexivity|]);
    vm_compute; reflexivity.
Qed.

(** The first five reports of the scenario are all delegated. *)
Lemma scenario_first_five_delegated (ra : bool) :
  Forall (λ v, v = Some Delegated)
    (verdicts (scenario_object ra) scenario_first_five).
Proof. destruct ra; vm_compute; repeat constructor. Qed.

(** Four values are recorded before the fifth call; with its own, the
    grace condition fails. *)
Lemma scenario_fifth_call (ra : bool) :
  length (recorded (foldl step (scenario_object ra) (take 4 scenario_first_five))
            (Qc_of_Z 2)) = 4%nat ∧
  ¬ grace_holds (foldl step (scenario_object ra) scenario_first_five) (Qc_of_Z 2).
Proof.
  split.
  - destruct ra; vm_compute; reflexivity.
  - apply (bool_decide_eq_false (grace_holds _ _)).
    destruct ra; vm_compute; reflexivity.
Qed.

(** What [grace_condition] itself answers in the scenario.  The fifth call
    hands it the object with the fifth value already in the list, and gets
    [False]; on the object before that insertion it answers [True]. *)
Lemma scenario_fifth_grace_condition (ra : bool) :
  let self4 := foldl step (scenario_object ra) (take 4 scenario_first_five) in
  let self5 := foldl step (scenario_object ra) scenario_first_five in
  grace_condition self4 (Qc_of_Z 2) = (true, self4) ∧
  grace_condition self5 (Qc_of_Z 2) = (false, self5) ∧
  ∃ loc5,
    on_trial_result_rank self4 (scenario_trial 4) (scenario_result 10 2)
      = Ret (loc5, self5) ∧
    on_trial_result self4 (scenario_trial 4) (scenario_result 10 2)
      = on_trial_result_decide self5 (scenario_trial 4) (scenario_result 10 2) loc5.
Proof.
  intros self4 self5. subst self4 self5.
  split; [destruct ra; vm_compute; reflexivity|].
  split; [destruct ra; vm_compute; reflexivity|].
  assert (∃ loc5,
    on_trial_result_rank
      (foldl step (scenario_object ra) (take 4 scenario_first_five))
      (scenario_trial 4) (scenario_result 10 2)
    = Ret (loc5, foldl step (scenario_object ra) scenario_first_five))
    as [loc5 Hrank].
  { destruct ra; eexists; vm_compute; reflexivity. }
  exists loc5. split; [exact Hrank|].
  unfold on_trial_result. rewrite Hrank. reflexivity.
Qed.

(** The report of 20 made earlier.  After three values of 10 it is the
    fourth value of its level: [grace_condition] answers [True] and the
    report is delegated although its rank 3/4 is above the cutoff.  After
    four values of 10 it is the fifth: [grace_condition] answers [False]
    and the trial is stopped, although only four values were recorded
    before it. *)
Lemma scenario_grace_decides (ra : bool) :
  let self3 := foldl step (scenario_object ra) (take 3 scenario_first_five) in
  let self4 := foldl step (scenario_object ra) (take 4 scenario_first_five) in
  (∃ loc self',
     on_trial_result_rank self3 scenario_sixth.1 scenario_sixth.2
       = Ret (loc, self') ∧
     length (recorded self3 (Qc_of_Z 2)) = 3%nat ∧
     normalized_rank loc = frac 3 4 ∧
     rank_cutoff self' < normalized_rank loc ∧
     grace_condition self' (Qc_of_Z 2) = (true, self') ∧
     on_trial_result self3 scenario_sixth.1 scenario_sixth.2
       = delegation self' scenario_sixth.1 scenario_sixth.2) ∧
  (∃ loc self' r,
     on_trial_result_rank self4 scenario_sixth.1 scenario_sixth.2
       = Ret (loc, self') ∧
     length (recorded self4 (Qc_of_Z 2)) = 4%nat ∧
     normalized_rank loc = frac 4 5 ∧
     grace_condition self' (Qc_of_Z 2) = (false, self') ∧
     on_trial_result self4 scenario_sixth.1 scenario_sixth.2 = stopping self' r).
Proof.
  intros self3 self4. subst self3 self4. split.
  - destruct ra; eexists _, _;
      (split; [vm_compute; reflexivity|]);
      (split; [vm_compute; reflexivity|]);
      (split; [apply Qc_is_canon; vm_compute; reflexivity|]);
      (split; [vm_compute; reflexivity|]);
      (split; [vm_compute; reflexivity|]);
      vm_compute; reflexivity.
  - destruct ra; eexists _, _, _;
      (split; [vm_compute; reflexivity|]);
      (split; [vm_compute; reflexivity|]);
      (split; [apply Qc_is_canon; vm_compute; reflexivity|]);
      (split; [vm_compute; reflexivity|]);
      vm_compute; reflexivity.
Qed.

(** The check of the sixth call: [grace_condition] on the object with the
    sixth value in the list. *)
Lemma scenario_sixth_grace_condition (ra : bool) (loc : Locals)
    (self6 : MedianStoppingRule) :
  on_trial_result_rank (foldl step (scenario_object ra) scenario_first_five)
    scenario_sixth.1 scenario_sixth.2 = Ret (loc, self6) →
  grace_condition self6 (Qc_of_Z 2) = (false, self6) ∧
  on_trial_result (foldl step (scenario_object ra) scenario_first_five)
    scenario_sixth.1 scenario_sixth.2
  = on_trial_result_decide self6 scenario_sixth.1 scenario_sixth.2 loc.
Proof.
  intros Hrank. split.
  - assert (∀ obj, on_trial_result_rank obj scenario_sixth.1 scenario_sixth.2
                     = Ret (loc, self6) → self6 = step obj scenario_sixth)
      as Hstep.
    { intros obj Hobj. unfold step. by rewrite Hobj. }
    rewrite (Hstep _ Hrank).
    destruct ra; vm_compute; reflexivity.
  - unfold on_trial_result. rewrite Hrank. reflexivity.
Qed.

(** C2.  The scenario: [grace_population = 5], [grace_time = 1],
    [rank_cutoff = 1/2], mode "min", running average on or off.  Trials
    0..4 report 10 at level 2, then trial 5 reports 20 at level 2.  Each of
    the first five calls returns the decision of the wrapped scheduler,
    which sees the five reports as if it were asked directly.  At the fifth
    call [grace_condition] is given the object with the fifth value already
    in the list and answers [False]; on the object before that insertion
    it answers [True]: the value of a call counts towards its own grace
    population.  The verdicts show the same: a report of 20 after three
    values of 10 is delegated by grace with rank 3/4, after four values of
    10 it is stopped.  At the sixth call the value 20 goes to index 5 of a
    list of final length 6, [normalized_rank = 5/6 > 1/2],
    [grace_condition] answers [False], and the call returns [STOP] without
    calling the wrapped scheduler. *)
Theorem scenario_sixth_trial_stopped `{TrialScheduler Sched} (s : Sched) (ra : bool) :
  let self3 := foldl step (scenario_object ra) (take 3 scenario_first_five) in
  let self4 := foldl step (scenario_object ra) (take 4 scenario_first_five) in
  let self5 := foldl step (scenario_object ra) scenario_first_five in
  let first_five := run (scenario_object ra) s scenario_first_five in
  first_five.1.1.*1 = inr <$> (asked_directly s scenario_first_five).1 ∧
  handed_over (concat first_five.1.1.*2) = scenario_first_five ∧
  first_five.1.2 = self5 ∧
  first_five.2 = (asked_directly s scenario_first_five).2 ∧
  length (recorded self4 (Qc_of_Z 2)) = 4%nat ∧
  ¬ grace_holds self5 (Qc_of_Z 2) ∧
  grace_condition self4 (Qc_of_Z 2) = (true, self4) ∧
  grace_condition self5 (Qc_of_Z 2) = (false, self5) ∧
  (∃ loc5,
     on_trial_result_rank self4 (scenario_trial 4) (scenario_result 10 2)
       = Ret (loc5, self5) ∧
     on_trial_result self4 (scenario_trial 4) (scenario_result 10 2)
       = on_trial_result_decide self5 (scenario_trial 4) (scenario_result 10 2) loc5) ∧
  (∃ loc self',
     on_trial_result_rank self3 scenario_sixth.1 scenario_sixth.2
       = Ret (loc, self') ∧
     length (recorded self3 (Qc_of_Z 2)) = 3%nat ∧
     normalized_rank loc = frac 3 4 ∧
     rank_cutoff self' < normalized_rank loc ∧
     grace_condition self' (Qc_of_Z 2) = (true, self') ∧
     on_trial_result self3 scenario_sixth.1 scenario_sixth.2
       = delegation self' scenario_sixth.1 scenario_sixth.2) ∧
  (∃ loc self' r,
     on_trial_result_rank self4 scenario_sixth.1 scenario_sixth.2
       = Ret (loc, self') ∧
     normalized_rank loc = frac 4 5 ∧
     grace_condition self' (Qc_of_Z 2) = (false, self') ∧
     on_trial_result self4 scenario_sixth.1 scenario_sixth.2 = stopping self' r) ∧
  ∃ loc self6 r,
    on_trial_result_rank self5 scenario_sixth.1 scenario_sixth.2
      = Ret (loc, self6) ∧
    new_metric loc = Qc_of_Z 20 ∧
    index loc = 5%nat ∧
    recorded self6 (Qc_of_Z 2) = Qc_of_Z <$> [10; 10; 10; 10; 10; 20]%Z ∧
    length (recorded self6 (Qc_of_Z 2)) = 6%nat ∧
    normalized_rank loc = frac 5 6 ∧
    rank_cutoff self6 < normalized_rank loc ∧
    ¬ grace_holds self6 (Qc_of_Z 2) ∧
    grace_condition self6 (Qc_of_Z 2) = (false, self6) ∧
    on_trial_result self5 scenario_sixth.1 scenario_sixth.2
      = on_trial_result_decide self6 scenario_sixth.1 scenario_sixth.2 loc ∧
    on_trial_result self5 scenario_sixth.1 scenario_sixth.2 = stopping self6 r ∧
    exec (on_trial_result self5 scenario_sixth.1 scenario_sixth.2) first_five.2
      = (inr (STOP, self6), first_five.2, [Logged r]).
Proof.
  intros self3 self4 self5 first_five. subst self3 self4 self5 first_five.
  destruct (run_all_delegated _ s _ (scenario_first_five_delegated ra))
    as (Hds & Hs & Hseen).
  destruct (scenario_fifth_call ra) as [Hfour Hfifth].
  destruct (scenario_fifth_grace_condition ra) as (Hg4 & Hg5 & Hfifth_call).
  destruct (scenario_grace_decides ra) as [Hthree Hfourth].
  destruct (scenario_sixth_call ra)
    as (loc & self6 & r & Hrank & Hv & Hi & Hrec & Hnr & Hcut & Hgrace & Hstop).
  destruct (scenario_sixth_grace_condition ra loc self6 Hrank) as [Hg6 Hdecide].
  split_and!;
    [exact Hds|exact Hseen|apply run_object|exact Hs|exact Hfour|exact Hfifth
    |exact Hg4|exact Hg5|exact Hfifth_call|exact Hthree| |].
  - destruct Hfourth as (loc4 & self' & r4 & H1 & _ & H2 & H3 & H4).
    exists loc4, self', r4. split_and!; [exact H1|exact H2|exact H3|exact H4].
  - exists loc, self6, r.
    split_and!;
      [exact Hrank|exact Hv|exact Hi|exact Hrec| |exact Hnr|exact Hcut
      |exact Hgrace|exact Hg6|exact Hdecide|exact Hstop|].
    + rewrite Hrec. reflexivity.
    + rewrite Hstop. apply exec_stopping.
Qed.

(** C3.  From an object whose lists are ascending, as the empty
    dictionary [__init__] builds, and for any wrapped scheduler: after any
    number of the calls of a run, the list of every level is ascending, and
    it is the merge sort of what was there with all the values inserted at
    that level.  Inserting values one at a time from the empty array gives
    the same list as sorting them at once. *)
Theorem sorted_results_sorted `{TrialScheduler Sched} (s : Sched)
    (self : MedianStoppingRule) (reports : list (Trial * Result))
    (n : nat) (level : Qc) :
  sorted_invariant self →
  let now := (run self s (take n reports)).1.2 in
  StronglySorted Qcle (recorded now level) ∧
  recorded now level =
    merge_sort Qcle (recorded self level ++ values_at level self (take n reports)) ∧
  ∀ vs, StronglySorted Qcle (foldl inserted [] vs) ∧
        foldl inserted [] vs = merge_sort Qcle vs.
Proof.
  intros Hinv now. subst now. rewrite run_object.
  pose proof (foldl_step_sorted_invariant self (take n reports) Hinv level) as Hsort.
  split_and!; [done| |].
  - apply sorted_is_merge_sort; [done|]. apply recorded_foldl_step.
  - intros vs. split; [|apply foldl_inserted_merge_sort].
    apply foldl_inserted_sorted. constructor.
Qed.

(** The empty dictionary of [__init__] is sorted at every level. *)
Lemma sorted_invariant_empty self : sorted_results self = ∅ → sorted_invariant self.
Proof.
  intros Hempty level. unfold recorded. rewrite Hempty, lookup_empty.
  constructor.
Qed.

(** The object of the scenario, fresh from construction, meets the premise
    of C3. *)
Lemma sorted_results_sorted_witness :
  sorted_invariant (scenario_object true) ∧
  StronglySorted Qcle
    (recorded (run (scenario_object true)
                 {| script := []; scripted_space := ∅;
                    scripted_metric := None; scripted_mode := "min" |}
                 (take 3 scenario_first_five)).1.2 (Qc_of_Z 2)).
Proof.
  split; [by apply sorted_invariant_empty|].
  apply (sorted_results_sorted
           {| script := []; scripted_space := ∅;
              scripted_metric := None; scripted_mode := "min" |}
           (scenario_object true) scenario_first_five 3 (Qc_of_Z 2)).
  by apply sorted_invariant_empty.
Defined.

Section histories.
Implicit Types (self : MedianStoppingRule) (trial : Trial) (result : Result).
Implicit Types (reports : list (Trial * Result)).

Lemma mean_singleton (x : Qc) : np.mean [x] = x.
Proof.
  unfold np.mean, np.sum. simpl. rewrite Qcplus_0_r.
  change (Qc_of_nat 1) with (Qc_of_Z 1). rewrite Z2Qc_inj_1.
  apply (right_id 1 Qcdiv).
Qed.

Lemma sign_adjusted_same self1 self2 raw :
  mode self1 = mode self2 → sign_adjusted self1 raw = sign_adjusted self2 raw.
Proof. unfold sign_adjusted. by intros ->. Qed.

Lemma reported_by_same tid self1 self2 reports :
  same_parameters self1 self2 →
  reported_by tid self1 reports = reported_by tid self2 reports.
Proof.
  intros (Hm & Hr & Hmode & _).
  induction reports as [|[trial result] reports IH]; [done|].
  cbn [reported_by]. rewrite Hm, Hr, IH.
  destruct (metric self2 ≫= (result !!.)) as [raw|]; [|done].
  destruct (result !! resource_attr self2); [|done].
  by rewrite (sign_adjusted_same self1 self2).
Qed.

Lemma history_after_report self tid raw level :
  running_average self = true →
  history (after_report self tid raw level) tid
  = history self tid ++ [sign_adjusted self raw].
Proof.
  intros Hra. unfold history at 1. simpl. by rewrite Hra, lookup_insert_eq.
Qed.

Lemma history_after_report_ne self tid tid' raw level :
  tid ≠ tid' →
  history (after_report self tid raw level) tid' = history self tid'.
Proof.
  intros Hne. unfold history. simpl.
  destruct (running_average self); [|done]. by rewrite lookup_insert_ne.
Qed.

(** With the running average on, the history of a trial is what it had
    plus what it has reported since, in order. *)
Lemma history_foldl_step self reports tid :
  running_average self = true →
  history (foldl step self reports) tid
  = history self tid ++ reported_by tid self reports.
Proof.
  revert self. induction reports as [|[trial result] reports IH];
    intros self Hra.
  { simpl. by rewrite app_nil_r. }
  pose proof (step_same_parameters self (trial, result)) as Hsame.
  cbn [foldl reported_by]. rewrite IH; last first.
  { destruct Hsame as (_ & _ & _ & -> & _). done. }
  rewrite (reported_by_same tid _ self) by done. clear IH Hsame.
  destruct (report_cases self result)
    as [(m & raw & level & Hm & Hraw & Hlevel)|[Hnone|(raw & Hraw & Hnone)]].
  - rewrite (proj1 (step_accepted _ _ _ _ _ _ Hm Hraw Hlevel)).
    rewrite Hm. simpl. rewrite Hraw, Hlevel.
    case_decide as Hid.
    + subst tid. rewrite history_after_report by done.
      by rewrite <-app_assoc.
    + by rewrite history_after_report_ne.
  - rewrite (proj1 (step_rejected self trial result (or_introl Hnone))).
    by rewrite Hnone.
  - rewrite (proj1 (step_rejected self trial result (or_intror Hnone))).
    rewrite Hraw, Hnone. done.
Qed.
End histories.



(** C5 as stated fails.  Mode "max", running average off: trial 0 reports
    1 at level 2, then trial 1 reports 2 at level 2, strictly above the only
    sibling.  The sign flip makes it the lowest internal value, so it goes
    to the front: index 0 and [normalized_rank = 0], not 1. *)
Lemma max_mode_best_rank_counterexample :
  let self := step (scenario_object_max false) (scenario_trial 0, scenario_result 1 2) in
  mode self = "max" ∧
  Forall (λ x, - x < Qc_of_Z 2) (recorded self (Qc_of_Z 2)) ∧
  ∃ loc self',
    on_trial_result_rank self (scenario_trial 1) (scenario_result 2 2)
      = Ret (loc, self') ∧
    index loc = 0%nat ∧
    normalized_rank loc = 0 ∧
    normalized_rank loc ≠ 1.
Proof.
  split_and!; [done| |].
  - assert (recorded (step (scenario_object_max false)
                        (scenario_trial 0, scenario_result 1 2)) (Qc_of_Z 2)
            = [- Qc_of_Z 1]) as -> by (by vm_compute).
    by repeat constructor.
  - eexists _, _. split; [vm_compute; reflexivity|].
    split_and!; [done|by apply Qc_is_canon|by vm_compute].
Qed.

(** C5, amended.  Under mode "max", when the running average is off or the
    report is the trial's first, a trial whose raw value is strictly above
    the raw value [- x] of every value [x] recorded at the level gets the
    lowest internal value [- raw], is inserted at the front (index 0), and
    has [normalized_rank = 0]. *)
Theorem max_mode_best_rank_zero (self : MedianStoppingRule) (trial : Trial)
    (result : Result) (m : string) (raw level : Qc) :
  mode self = "max" →
  metric self = Some m → result !! m = Some raw →
  result !! resource_attr self = Some level →
  running_average self = false ∨ history self (trial_id trial) = [] →
  Forall (λ x, - x < raw) (recorded self level) →
  ∃ loc self',
    on_trial_result_rank self trial result = Ret (loc, self') ∧
    new_metric loc = - raw ∧
    index loc = 0%nat ∧
    normalized_rank loc = 0 ∧
    recorded self' level = - raw :: recorded self level.
Proof.
  intros Hmode Hm Hraw Hlevel Hfirst Hbest.
  exists (locals_of_report self (trial_id trial) raw level),
         (after_report self (trial_id trial) raw level).
  assert (sign_adjusted self raw = - raw) as Hsign.
  { unfold sign_adjusted. rewrite decide_True by done. ring. }
  assert (effective_value self (trial_id trial) raw = - raw) as Hv.
  { unfold effective_value. rewrite Hsign.
    destruct Hfirst as [->| ->]; [done|].
    destruct (running_average self); [apply mean_singleton|done]. }
  assert (np.searchsorted (recorded self level) (- raw) = 0%nat) as Hi.
  { apply searchsorted_front. eapply Forall_impl; [exact Hbest|].
    intros x Hx. simpl in Hx. apply Qclt_le_weak, Qcopp_le_compat in Hx.
    by rewrite Qcopp_involutive in Hx. }
  split_and!.
  - by apply on_trial_result_rank_eq with m.
  - done.
  - cbn [index locals_of_report]. by rewrite Hv.
  - cbn [normalized_rank locals_of_report]. rewrite Hv, Hi.
    unfold Qcdiv. apply Qcmult_0_l.
  - rewrite recorded_after_report, Hv. unfold inserted. by rewrite Hi, drop_0.
Qed.

(** The premises of the amended C5 hold for a first report above the only
    sibling, with the running average on. *)
Lemma max_mode_best_rank_zero_witness :
  let self := step (scenario_object_max true) (scenario_trial 0, scenario_result 1 2) in
  mode self = "max" ∧ metric self = Some "loss" ∧
  scenario_result 2 2 !! "loss" = Some (Qc_of_Z 2) ∧
  scenario_result 2 2 !! resource_attr self = Some (Qc_of_Z 2) ∧
  (running_average self = false ∨ history self (trial_id (scenario_trial 1)) = []) ∧
  Forall (λ x, - x < Qc_of_Z 2) (recorded self (Qc_of_Z 2)) ∧
  ∃ loc self',
    on_trial_result_rank self (scenario_trial 1) (scenario_result 2 2)
      = Ret (loc, self') ∧
    normalized_rank loc = 0.
Proof.
  assert (Forall (λ x, - x < Qc_of_Z 2)
            (recorded (step (scenario_object_max true)
                         (scenario_trial 0, scenario_result 1 2)) (Qc_of_Z 2)))
    as Hbest.
  { vm_compute. repeat constructor. }
  split_and!; [reflexivity..|right; reflexivity|exact Hbest|].
  destruct (max_mode_best_rank_zero
              (step (scenario_object_max true) (scenario_trial 0, scenario_result 1 2))
              (scenario_trial 1) (scenario_result 2 2) "loss" (Qc_of_Z 2) (Qc_of_Z 2))
    as (loc & self' & Hrank & _ & _ & Hzero & _);
    [reflexivity..|right; reflexivity|exact Hbest|].
  exists loc, self'. split; [exact Hrank|exact Hzero].
Defined.

(** C6.  [_suggest], [metric_names] and [metric_mode] are one call of the
    same method of the wrapped scheduler each: its answer is returned as it
    is, its state afterwards is the one that call leaves, and the wrapper
    object is not changed. *)
Theorem passthrough_suggest_names_mode `{TrialScheduler Sched} (s : Sched)
    (self : MedianStoppingRule) (tid : Z) :
  exec (_suggest self tid) s =
    (inr ((impl_suggest s tid).1, self), (impl_suggest s tid).2,
     [Called (Scheduler._suggest tid) (impl_suggest s tid).1]) ∧
  exec (metric_names self) s =
    (inr ((impl_metric_names s).1, self), (impl_metric_names s).2,
     [Called Scheduler.metric_names (impl_metric_names s).1]) ∧
  exec (metric_mode self) s =
    (inr ((impl_metric_mode s).1, self), (impl_metric_mode s).2,
     [Called Scheduler.metric_mode (impl_metric_mode s).1]).
Proof.
  split_and!; simpl.
  - by destruct (impl_suggest s tid).
  - by destruct (impl_metric_names s).
  - by destruct (impl_metric_mode s).
Qed.

Section construction.
Context `{TrialScheduler Sched}.

(** [__init__] raises nothing: it asks the wrapped scheduler for its
    configuration space, for its [metric] attribute if no metric was given,
    and for its mode, and stores its arguments as they are. *)
Lemma exec_init (s : Sched) (resource_attr : string) (ra : bool)
    (metric_arg : option string) (gt gp : option Z) (rc : Qc) :
  ∃ tr,
    exec (__init__ resource_attr ra metric_arg gt gp rc) s =
      (inr {| config_space := impl_config_space s;
              metric :=
                match metric_arg with
                | Some m => Some m
                | None =>
                    match impl_getattr_metric s with
                    | Some v => v
                    | None => None
                    end
                end;
              sorted_results := ∅;
              resource_attr := resource_attr; rank_cutoff := rc;
              grace_time := gt; min_samples_required := gp;
              running_average := ra; trial_to_results := ∅;
              mode := (impl_metric_mode s).1 |},
       (impl_metric_mode s).2, tr).
Proof.
  unfold __init__. destruct metric_arg as [m|]; simpl.
  - destruct (impl_metric_mode s) as [md s']. simpl. eauto.
  - destruct (impl_getattr_metric s) as [v|];
      destruct (impl_metric_mode s) as [md s']; simpl; eauto.
Qed.
End construction.

(** C7 as stated fails in its second half.  A wrapped scheduler without a
    [metric] attribute and no explicit metric: construction returns an
    object, with [metric] left at [None]; no error is signalled. *)
Lemma init_unresolved_metric_counterexample :
  let s := {| script := []; scripted_space := ∅;
              scripted_metric := None; scripted_mode := "max" |} in
  impl_getattr_metric s = None ∧
  ∃ self,
    (exec (__init__ "epoch" true None (Some 1%Z) (Some 5%Z) (frac 1 2)) s).1.1
      = inr self ∧
    metric self = None.
Proof. split; [done|]. eexists. split; [vm_compute; reflexivity|done]. Qed.

(** C7, amended.  Construction never raises.  With an explicit metric,
    [self.metric] is that metric.  With [metric=None], [self.metric] is the
    value of the wrapped scheduler's [metric] attribute when the attribute
    exists ("accuracy" for a scheduler whose attribute is "accuracy"), and
    stays [None] when it does not.  An object whose [metric] is [None]
    raises [KeyError] at every [on_trial_result]. *)
Theorem init_metric_resolution `{TrialScheduler Sched} (s : Sched)
    (resource_attr : string) (ra : bool) (metric_arg : option string)
    (gt gp : option Z) (rc : Qc) :
  ∃ self,
    (exec (__init__ resource_attr ra metric_arg gt gp rc) s).1.1 = inr self ∧
    (∀ m, metric_arg = Some m → metric self = Some m) ∧
    (∀ v, metric_arg = None → impl_getattr_metric s = Some v → metric self = v) ∧
    (metric_arg = None → impl_getattr_metric s = None → metric self = None) ∧
    (metric self = None →
     ∀ trial result, on_trial_result self trial result = Raise (KeyError None)).
Proof.
  destruct (exec_init s resource_attr ra metric_arg gt gp rc) as [tr ->].
  eexists. split; [done|]. cbn [metric]. split_and!.
  - by intros m ->.
  - by intros v -> ->.
  - by intros -> ->.
  - intros Hnone trial result. unfold on_trial_result.
    rewrite on_trial_result_rank_KeyError_metric; cbn [metric]; by rewrite Hnone.
Qed.

(** The scenario of the spec for C7: a scheduler of mode "max" whose
    [metric] attribute is "accuracy". *)
Lemma init_metric_accuracy :
  let s := {| script := []; scripted_space := ∅;
              scripted_metric := Some (Some "accuracy"); scripted_mode := "max" |} in
  ∃ self,
    (exec (__init__ "epoch" true None (Some 1%Z) (Some 5%Z) (frac 1 2)) s).1.1
      = inr self ∧
    metric self = Some "accuracy" ∧ mode self = "max".
Proof. eexists. split; [vm_compute; reflexivity|done]. Qed.

(** C8 as stated fails.  [rank_cutoff = 2], outside (0, 1]: construction
    returns an object that holds the value 2. *)
Lemma init_rank_cutoff_counterexample :
  let s := {| script := []; scripted_space := ∅;
              scripted_metric := None; scripted_mode := "min" |} in
  ¬ (0 < Qc_of_Z 2 ∧ Qc_of_Z 2 ≤ 1) ∧
  ∃ self,
    (exec (__init__ "epoch" true (Some "loss") (Some 1%Z) (Some 5%Z) (Qc_of_Z 2))
       s).1.1 = inr self ∧
    rank_cutoff self = Qc_of_Z 2.
Proof.
  split.
  - intros [_ Hle]. by vm_compute in Hle.
  - eexists. split; [vm_compute; reflexivity|done].
Qed.

(** C8, amended.  [__init__] does not check [rank_cutoff]: whatever value
    is supplied, inside (0, 1] or not, construction returns an object and
    that object holds the value unchanged. *)
Theorem init_rank_cutoff_stored `{TrialScheduler Sched} (s : Sched)
    (resource_attr : string) (ra : bool) (metric_arg : option string)
    (gt gp : option Z) (rc : Qc) :
  ∃ self,
    (exec (__init__ resource_attr ra metric_arg gt gp rc) s).1.1 = inr self ∧
    rank_cutoff self = rc.
Proof.
  destruct (exec_init s resource_attr ra metric_arg gt gp rc) as [tr ->].
  eexists. split; done.
Qed.

Section verdicts.
Implicit Types (self : MedianStoppingRule) (trial : Trial) (result : Result).

Lemma grace_holds_after_report self tid raw level :
  grace_holds (after_report self tid raw level) level ↔
  (∃ n, min_samples_required self = Some n ∧
        (Z.of_nat (S (length (recorded self level))) < n)%Z) ∨
  (∃ g, grace_time self = Some g ∧ level < Qc_of_Z g).
Proof.
  unfold grace_holds. rewrite recorded_after_report, length_inserted. done.
Qed.

(** The verdict on a result that carries both keys, from the parameters,
    the list of the level, and the value that is ranked. *)
Lemma verdict_on_trial_result self trial result m raw level :
  metric self = Some m → result !! m = Some raw →
  result !! resource_attr self = Some level →
  verdict (on_trial_result self trial result) =
    Some (if bool_decide
               (grace_holds (after_report self (trial_id trial) raw level) level ∨
                normalized_rank (locals_of_report self (trial_id trial) raw level)
                  ≤ rank_cutoff self)
          then Delegated else Stopped).
Proof.
  intros Hm Hraw Hlevel.
  rewrite (on_trial_result_eq _ _ _ _ _ _ Hm Hraw Hlevel).
  by case_bool_decide.
Qed.

Lemma verdicts_app self pre post :
  verdicts self (pre ++ post) = verdicts self pre ++ verdicts (foldl step self pre) post.
Proof.
  revert self. induction pre as [|report pre IH]; intros self; [done|].
  simpl. by rewrite IH.
Qed.

Lemma length_verdicts self reports : length (verdicts self reports) = length reports.
Proof.
  revert self. induction reports as [|report reports IH]; intros self; [done|].
  simpl. by rewrite IH.
Qed.
End verdicts.

(** C9 as stated fails.  Running average on, same parameters.  When trial
    7 reports 0 at level 2, the two runs agree on the reported value, on
    the grace parameters and on the values recorded at level 2, yet the
    first hands the report to the wrapped scheduler and the second stops
    the trial: the report of trial 7 at level 1 is in its running
    average. *)
Lemma verdict_own_value_counterexample :
  let self1 := foldl step (scenario_object true) run_without_past in
  let self2 := foldl step (scenario_object true) run_with_past in
  same_parameters self1 self2 ∧
  recorded self1 (Qc_of_Z 2) = recorded self2 (Qc_of_Z 2) ∧
  verdict (on_trial_result self1 (scenario_trial 7) (scenario_result 0 2))
    = Some Delegated ∧
  verdict (on_trial_result self2 (scenario_trial 7) (scenario_result 0 2))
    = Some Stopped.
Proof.
  split_and!.
  - repeat split.
  - compute_done.
  - vm_compute. reflexivity.
  - vm_compute. reflexivity.
Qed.

(** C9, amended.  Two objects with the same parameters (metric, resource
    key, mode, running-average flag, rank cutoff, grace time, grace
    population) that agree on the values recorded at the level of the
    report and, when the running average is on, on the values the
    reporting trial has reported before, give the same verdict on reports
    of the same value at that level; the verdict is to delegate or to stop.
    The verdicts of the reports handed in so far are not changed by any
    report that follows. *)
Theorem verdict_determined (self1 self2 : MedianStoppingRule)
    (trial1 trial2 : Trial) (result1 result2 : Result)
    (m : string) (raw level : Qc) :
  same_parameters self1 self2 →
  metric self1 = Some m →
  result1 !! m = Some raw → result2 !! m = Some raw →
  result1 !! resource_attr self1 = Some level →
  result2 !! resource_attr self1 = Some level →
  recorded self1 level = recorded self2 level →
  (running_average self1 = true →
   history self1 (trial_id trial1) = history self2 (trial_id trial2)) →
  verdict (on_trial_result self1 trial1 result1)
    = verdict (on_trial_result self2 trial2 result2) ∧
  (verdict (on_trial_result self1 trial1 result1) = Some Delegated ∨
   verdict (on_trial_result self1 trial1 result1) = Some Stopped) ∧
  ∀ pre post,
    take (length pre) (verdicts self1 (pre ++ post)) = verdicts self1 pre.
Proof.
  intros (Hm & Hr & Hmode & Hra & Hcut & Hgt & Hgp) Hm1 Hraw1 Hraw2 Hl1 Hl2
    Hrec Hhist.
  rewrite (verdict_on_trial_result self1 trial1 result1 m raw level) by done.
  rewrite (verdict_on_trial_result self2 trial2 result2 m raw level)
    by congruence.
  assert (effective_value self1 (trial_id trial1) raw
          = effective_value self2 (trial_id trial2) raw) as Hv.
  { unfold effective_value. rewrite <-Hra, (sign_adjusted_same self1 self2) by done.
    destruct (running_average self1); [|done]. by rewrite Hhist. }
  split_and!.
  - match goal with
    | |- Some (if bool_decide ?P then _ else _)
         = Some (if bool_decide ?Q then _ else _) =>
        assert (P ↔ Q) as Hiff
    end.
    { rewrite !grace_holds_after_report.
      cbn [normalized_rank locals_of_report].
      by rewrite Hv, Hrec, Hcut, Hgt, Hgp. }
    by rewrite (bool_decide_ext _ _ Hiff).
  - case_bool_decide; eauto.
  - intros pre post. rewrite verdicts_app.
    rewrite take_app_length'; [done|]. by rewrite length_verdicts.
Qed.

(** A trial that has not reported before gets the same verdict in the two
    runs of the counterexample. *)
Lemma verdict_determined_witness :
  let self1 := foldl step (scenario_object true) run_without_past in
  let self2 := foldl step (scenario_object true) run_with_past in
  same_parameters self1 self2 ∧
  metric self1 = Some "loss" ∧
  scenario_result 0 2 !! "loss" = Some (Qc_of_Z 0) ∧
  scenario_result 0 2 !! resource_attr self1 = Some (Qc_of_Z 2) ∧
  recorded self1 (Qc_of_Z 2) = recorded self2 (Qc_of_Z 2) ∧
  (running_average self1 = true →
   history self1 (trial_id (scenario_trial 8)) = history self2 (trial_id (scenario_trial 8))) ∧
  verdict (on_trial_result self1 (scenario_trial 8) (scenario_result 0 2))
    = verdict (on_trial_result self2 (scenario_trial 8) (scenario_result 0 2)).
Proof.
  assert (recorded (foldl step (scenario_object true) run_without_past) (Qc_of_Z 2)
          = recorded (foldl step (scenario_object true) run_with_past) (Qc_of_Z 2))
    as Hrec by compute_done.
  split_and!;
    [repeat split|reflexivity|reflexivity|reflexivity|exact Hrec
    |intros _; reflexivity|].
  apply (verdict_determined
           (foldl step (scenario_object true) run_without_past)
           (foldl step (scenario_object true) run_with_past)
           (scenario_trial 8) (scenario_trial 8)
           (scenario_result 0 2) (scenario_result 0 2)
           "loss" (Qc_of_Z 0) (Qc_of_Z 2));
    [repeat split|reflexivity|reflexivity|reflexivity|reflexivity|reflexivity
    |exact Hrec|intros _; reflexivity].
Defined.

Section objects.
Context `{TrialScheduler Sched}.
Implicit Types (self : MedianStoppingRuleObjects) (this : MedianStoppingRule).
Implicit Types (trial : Trial) (result : PyResult) (heap : Heap) (s : Sched).




(** ** On numbers the two embeddings agree *)

(** Lines 100-105 never raise: the index is a position of the array. *)
Lemma on_trial_result_insert_eq this (v level : Qc) :
  on_trial_result_insert this v level =
    Some ({| new_metric := v; time_step := level;
             index := np.searchsorted (recorded this level) v;
             normalized_rank :=
               Qc_of_nat (np.searchsorted (recorded this level) v)
               / Qc_of_nat (S (length (recorded this level))) |},
          set_sorted_results this
            (<[level := inserted (recorded this level) v]> (sorted_results this))).
Proof.
  unfold on_trial_result_insert.
  destruct (defaultdict_getitem (sorted_results this) level) as [a d] eqn:E.
  assert (a = recorded this level) as ->.
  { unfold recorded. by rewrite <-defaultdict_getitem_fst, E. }
  assert (d !! level = Some (recorded this level)) as Hd.
  { replace d with (defaultdict_getitem (sorted_results this) level).2
      by (by rewrite E).
    apply defaultdict_getitem_snd_lookup. }
  cbn [sorted_results set_sorted_results].
  unfold defaultdict_getitem at 1. rewrite Hd.
  rewrite insert_searchsorted.
  cbn [sorted_results set_sorted_results mbind option_bind].
  rewrite defaultdict_getitem_insert. simpl.
  rewrite length_inserted.
  assert (<[level := inserted (recorded this level) v]> d
          = <[level := inserted (recorded this level) v]> (sorted_results this)) as ->.
  { replace d with (defaultdict_getitem (sorted_results this) level).2
      by (by rewrite E).
    apply defaultdict_getitem_snd_insert. }
  reflexivity.
Qed.

(** Lines 95-98 on objects. *)
Lemma running_average_objects self trial heap (v : PyValue) :
  let this := to_numbers heap self in
  (if running_average (attributes self) then
     let '(l, d) :=
       defaultdict_getitem_objects (trial_to_results_objects self) (trial_id trial) in
     let self1 :=
       set_trial_to_results_objects self (<[trial_id trial := l ++ [v]]> d) in
     let '(l, d) :=
       defaultdict_getitem_objects (trial_to_results_objects self1) (trial_id trial) in
     (np.mean (deref heap <$> l), set_trial_to_results_objects self1 d)
   else (deref heap v, self))
  = ((if running_average this
      then np.mean (history this (trial_id trial) ++ [deref heap v])
      else deref heap v),
     set_trial_to_results_objects self
       (if running_average this
        then <[trial_id trial :=
                 default [] (trial_to_results_objects self !! trial_id trial) ++ [v]]>
               (trial_to_results_objects self)
        else trial_to_results_objects self)).
Proof.
  intros this. subst this. unfold to_numbers.
  cbn [running_average set_trial_to_results].
  destruct (running_average (attributes self)); [|by destruct self].
  unfold history. cbn [trial_to_results set_trial_to_results].
  rewrite lookup_fmap.
  unfold defaultdict_getitem_objects at 1.
  destruct (trial_to_results_objects self !! trial_id trial) as [l|] eqn:El.
  - cbn [trial_to_results_objects set_trial_to_results_objects].
    unfold defaultdict_getitem_objects. rewrite lookup_insert_eq.
    cbn [trial_to_results_objects set_trial_to_results_objects fmap option_fmap option_map default].
    by rewrite fmap_app.
  - cbn [trial_to_results_objects set_trial_to_results_objects].
    unfold defaultdict_getitem_objects. rewrite lookup_insert_eq.
    cbn [trial_to_results_objects set_trial_to_results_objects fmap option_fmap option_map default].
    by rewrite insert_insert_eq.
Qed.

(** Line 92 on a number, and in another mode: nothing is written. *)
Lemma imul_number self heap (v : PyValue) :
  (mode (attributes self) = "max" → ∀ address, v ≠ PyArray address) →
  ∃ v', (if decide (mode (attributes self) = "max")
         then imul heap v (- 1) else (v, heap)) = (v', heap) ∧
        deref heap v' = sign_adjusted (to_numbers heap self) (deref heap v).
Proof.
  intros Hnumber. unfold sign_adjusted, to_numbers. cbn [mode set_trial_to_results].
  case_decide as Hmode; [|by exists v].
  destruct v as [q|address]; [by exists (PyNumber (q * - 1))|].
  by destruct (Hnumber Hmode address).
Qed.

(** Where line 92 writes to no array and the level is a number, a call on
    objects does what the call on the numbers they hold does. *)
Lemma on_trial_result_objects_numbers s self trial result heap :
  (mode (attributes self) = "max" →
   ∀ m address, metric (attributes self) = Some m →
                result !! m ≠ Some (PyArray address)) →
  (∀ address, result !! resource_attr (attributes self) ≠ Some (PyArray address)) →
  ∃ o self' s' tr,
    exec (on_trial_result_objects self trial result heap) s
      = (inr (o, self', heap), s', tr) ∧
    exec (on_trial_result (to_numbers heap self) trial (contents heap result)) s
      = (match o with
         | inl e => inl e
         | inr d => inr (d, to_numbers heap self')
         end, s', tr).
Proof.
  intros Hnumber Hhashable.
  set (this := to_numbers heap self).
  assert (metric (attributes self) = metric this) as Emetric by done.
  assert (resource_attr (attributes self) = resource_attr this) as Eattr by done.
  destruct (report_cases this (contents heap result))
    as [(m & raw & level & Hm & Hraw & Hlevel)|[Hnone|(raw & Hraw & Hnone)]].
  - rewrite (on_trial_result_eq this trial _ m raw level Hm Hraw Hlevel).
    unfold contents in Hraw, Hlevel. rewrite lookup_fmap in Hraw, Hlevel.
    apply fmap_Some in Hraw as (v & Hv & ->).
    apply fmap_Some in Hlevel as (lv & Hlv & ->).
    rewrite <-Eattr in Hlv.
    destruct lv as [level|address]; [|by destruct (Hhashable address)].
    cbn [deref].
    unfold on_trial_result_objects. rewrite Emetric, Hm. cbn [mbind option_bind].
    rewrite Hv.
    destruct (imul_number self heap v) as (v' & -> & Hv').
    { intros Hmode address ->. rewrite Emetric in Hnumber.
      by apply (Hnumber Hmode m address Hm). }
    change (to_numbers heap self) with this in Hv'.
    rewrite Hlv. rewrite running_average_objects. fold this. rewrite Hv'.
    fold (effective_value this (trial_id trial) (deref heap v)).
    cbn [attributes set_trial_to_results_objects].
    rewrite on_trial_result_insert_eq.
    rewrite on_trial_result_decide_eq; last first.
    { cbn [sorted_results set_sorted_results time_step].
      rewrite lookup_insert_eq. eauto. }
    set (cond := bool_decide
                   (grace_holds (after_report this (trial_id trial) (deref heap v) level) level
                    ∨ normalized_rank (locals_of_report this (trial_id trial) (deref heap v) level)
                      ≤ rank_cutoff this)).
    change (bool_decide (grace_holds (set_sorted_results _ _) _ ∨ _)) with cond.
    set (histories := if running_average this then _ else _).
    set (this2 := set_sorted_results (attributes self) _).
    assert (to_numbers heap (set_attributes
                               (set_trial_to_results_objects self histories) this2)
            = after_report this (trial_id trial) (deref heap v) level) as Hstate.
    { subst this2 histories.
      unfold to_numbers, after_report, set_attributes,
        set_trial_to_results_objects, set_trial_to_results, set_sorted_results.
      cbn [attributes trial_to_results_objects config_space metric sorted_results
           resource_attr rank_cutoff grace_time min_samples_required
           running_average trial_to_results mode].
      f_equal.
      destruct (running_average this); [|done].
      rewrite fmap_insert, fmap_app. cbn [fmap list_fmap]. rewrite Hv'.
      unfold history, this, to_numbers.
      cbn [trial_to_results set_trial_to_results]. rewrite lookup_fmap.
      by destruct (trial_to_results_objects self !! trial_id trial). }
    destruct cond.
    + unfold delegation. simpl.
      destruct (impl_on_trial_result s trial (contents heap result)) as [d s'].
      eexists (inr d), _, s', _. split; [reflexivity|].
      cbn beta iota. by rewrite Hstate.
    + unfold stopping. simpl.
      eexists (inr STOP), _, s, _. split; [reflexivity|].
      cbn beta iota. by rewrite Hstate.
  - unfold on_trial_result.
    rewrite on_trial_result_rank_KeyError_metric by done.
    unfold on_trial_result_objects.
    assert (metric (attributes self) ≫= (result !!.) = None) as ->.
    { rewrite Emetric. destruct (metric this) as [m|]; [|done]. simpl in *.
      unfold contents in Hnone. rewrite lookup_fmap in Hnone.
      by destruct (result !! m). }
    eexists (inl _), _, s, _. split; [reflexivity|]. by rewrite Emetric.
  - unfold on_trial_result.
    erewrite on_trial_result_rank_KeyError_resource by done.
    unfold on_trial_result_objects.
    destruct (metric this) as [m|] eqn:Hm; [|done]. simpl in Hraw.
    unfold contents in Hraw, Hnone. rewrite lookup_fmap in Hraw, Hnone.
    apply fmap_Some in Hraw as (v & Hv & ->).
    rewrite Emetric. cbn [mbind option_bind]. rewrite Hv.
    destruct (imul_number self heap v) as (v' & -> & Hv').
    { intros Hmode address ->. by apply (Hnumber Hmode m address Emetric). }
    rewrite Eattr.
    destruct (result !! resource_attr this); [done|].
    eexists (inl _), _, s, _. split; [reflexivity|]. done.
Qed.

(** On numbers alone: the object of numbers, a result of numbers. *)
Lemma to_numbers_of_numbers heap this : to_numbers heap (of_numbers this) = this.
Proof.
  unfold to_numbers, of_numbers. cbn [attributes trial_to_results_objects].
  rewrite <-map_fmap_compose.
  rewrite (map_fmap_ext _ id (trial_to_results this)).
  - rewrite map_fmap_id. by destruct this.
  - intros tid l _. simpl. rewrite <-list_fmap_compose. apply list_fmap_id.
Qed.

Lemma contents_numbers heap (numbers : Result) :
  contents heap (PyNumber <$> numbers) = numbers.
Proof.
  unfold contents. rewrite <-map_fmap_compose.
  rewrite (map_fmap_ext _ id numbers); [apply map_fmap_id|done].
Qed.

Lemma on_trial_result_objects_of_numbers s this trial (numbers : Result) heap :
  ∃ o self' s' tr,
    exec (on_trial_result_objects (of_numbers this) trial (PyNumber <$> numbers) heap) s
      = (inr (o, self', heap), s', tr) ∧
    exec (on_trial_result this trial numbers) s
      = (match o with
         | inl e => inl e
         | inr d => inr (d, to_numbers heap self')
         end, s', tr).
Proof.
  destruct (on_trial_result_objects_numbers s (of_numbers this) trial
              (PyNumber <$> numbers) heap)
    as (o & self' & s' & tr & Hobjects & Hnumbers).
  - intros _ m address _. rewrite lookup_fmap.
    by destruct (numbers !! m).
  - intros address. rewrite lookup_fmap.
    by destruct (numbers !! _).
  - exists o, self', s', tr. split; [done|].
    by rewrite to_numbers_of_numbers, contents_numbers in Hnumbers.
Qed.
End objects.




(* ===================================================================== *)
(** * Further properties of the wrapper *)
(* ===================================================================== *)

Section growth.
Context `{TrialScheduler Sched}.
Implicit Types (self : MedianStoppingRule) (trial : Trial) (result : Result).
Implicit Types (reports : list (Trial * Result)) (s : Sched).

Lemma sublist_same_length {A} (l1 l2 : list A) :
  l1 `sublist_of` l2 → (length l2 ≤ length l1)%nat → l1 = l2.
Proof.
  induction 1 as [|x l1 l2 _ IH|x l1 l2 Hsub _]; simpl; intros Hlen.
  - done.
  - f_equal. apply IH. lia.
  - apply sublist_length in Hsub. lia.
Qed.

Lemma sublist_inserted (a : list Qc) (v : Qc) : a `sublist_of` inserted a v.
Proof.
  unfold inserted. rewrite <-(take_drop (np.searchsorted a v) a) at 1.
  apply sublist_app; [done|]. by apply sublist_cons.
Qed.

Lemma step_recorded_sublist self report level :
  recorded self level `sublist_of` recorded (step self report) level.
Proof.
  destruct report as [trial result].
  destruct (report_cases self result)
    as [(m & raw & level' & Hm & Hraw & Hlevel)|[Hnone|(raw & Hraw & Hnone)]].
  - rewrite (proj1 (step_accepted _ _ _ _ _ _ Hm Hraw Hlevel)).
    destruct (decide (level' = level)) as [->|Hne].
    + rewrite recorded_after_report. apply sublist_inserted.
    + by rewrite recorded_after_report_ne.
  - by rewrite (proj1 (step_rejected self trial result (or_introl Hnone))).
  - by rewrite (proj1 (step_rejected self trial result (or_intror Hnone))).
Qed.

Lemma accepted_at_same level self1 self2 reports :
  same_parameters self1 self2 →
  accepted_at level self1 reports = accepted_at level self2 reports.
Proof.
  intros (Hm & Hr & _). unfold accepted_at.
  induction reports as [|report reports IH]; [done|].
  rewrite !filter_cons, IH, Hm, Hr. done.
Qed.

Lemma length_values_at level self reports :
  length (values_at level self reports) = length (accepted_at level self reports).
Proof.
  revert self. induction reports as [|[trial result] reports IH]; intros self;
    [done|].
  cbn [values_at]. unfold accepted_at at 1. rewrite filter_cons. cbn [snd].
  fold (accepted_at level self reports).
  rewrite <-(accepted_at_same level _ self reports
               (step_same_parameters self (trial, result))).
  destruct (report_cases self result)
    as [(m & raw & level' & Hm & Hraw & Hlevel)|[Hnone|(raw & Hraw & Hnone)]].
  - destruct (step_accepted self trial result _ _ _ Hm Hraw Hlevel) as [_ ->].
    cbn [time_step locals_of_report].
    rewrite Hm. simpl. rewrite Hraw, Hlevel.
    destruct (decide (level' = level)) as [->|Hne].
    + rewrite decide_True by eauto. simpl. by rewrite IH.
    + rewrite decide_False by (intros [_ [=]]; done). apply IH.
  - destruct (step_rejected self trial result (or_introl Hnone)) as [_ ->].
    rewrite Hnone. rewrite decide_False by (by intros [[? [=]] _]). apply IH.
  - destruct (step_rejected self trial result (or_intror Hnone)) as [_ ->].
    rewrite Hnone. rewrite decide_False by (by intros [_ [=]]). apply IH.
Qed.

(** X1.  A result without the metric key (or an object whose metric is
    [None]) makes [on_trial_result] raise [KeyError] for the metric, also
    when the resource key is missing as well; a result with the metric but
    without the resource key raises [KeyError] for the resource key.  In
    both cases the wrapped scheduler is not called and nothing is logged. *)
Theorem on_trial_result_missing_key self trial result s :
  (metric self ≫= (result !!.) = None →
   exec (on_trial_result self trial result) s
   = (inl (KeyError (metric self)), s, [])) ∧
  (is_Some (metric self ≫= (result !!.)) →
   result !! resource_attr self = None →
   exec (on_trial_result self trial result) s
   = (inl (KeyError (Some (resource_attr self))), s, [])).
Proof.
  unfold on_trial_result. split.
  - intros Hm. by rewrite on_trial_result_rank_KeyError_metric.
  - intros [raw Hraw] Hr.
    by erewrite on_trial_result_rank_KeyError_resource.
Qed.

(** X2.  The list of a level only grows, and keeps what it had in the
    order it had it: after any run it contains the list from before as a
    subsequence, and its length has grown by the number of reports at that
    level that carried both keys, whether they were delegated or stopped.
    A level no such report was at keeps its list. *)
Theorem recorded_only_grows self s reports level :
  let final := (run self s reports).1.2 in
  recorded self level `sublist_of` recorded final level ∧
  length (recorded final level) =
    (length (recorded self level) + length (accepted_at level self reports))%nat ∧
  (accepted_at level self reports = [] → recorded final level = recorded self level).
Proof.
  intros final. subst final. rewrite run_object.
  assert (recorded self level `sublist_of` recorded (foldl step self reports) level)
    as Hsub.
  { revert self. induction reports as [|report reports IH]; intros self; [done|].
    simpl. etrans; [apply step_recorded_sublist|apply IH]. }
  assert (length (recorded (foldl step self reports) level) =
          (length (recorded self level) + length (accepted_at level self reports))%nat)
    as Hlen.
  { rewrite (Permutation_length (recorded_foldl_step self reports level)).
    by rewrite length_app, length_values_at. }
  split_and!; [done|done|].
  intros Hnone. rewrite Hnone in Hlen. simpl in Hlen.
  symmetry. apply sublist_same_length; [done|lia].
Qed.
End growth.

Section frames.
Context `{TrialScheduler Sched}.
Implicit Types (self : MedianStoppingRule) (trial : Trial) (result : Result).
Implicit Types (reports : list (Trial * Result)) (s : Sched).

Lemma step_frame self report :
  config_space (step self report) = config_space self ∧
  (running_average self = false →
   trial_to_results (step self report) = trial_to_results self) ∧
  (∀ tid, trial_id report.1 ≠ tid → history (step self report) tid = history self tid).
Proof.
  destruct report as [trial result].
  destruct (report_cases self result)
    as [(m & raw & level & Hm & Hraw & Hlevel)|[Hnone|(raw & Hraw & Hnone)]].
  - rewrite (proj1 (step_accepted _ _ _ _ _ _ Hm Hraw Hlevel)).
    split_and!; [done| |].
    + simpl. by intros ->.
    + intros tid Hne. by apply history_after_report_ne.
  - by rewrite (proj1 (step_rejected self trial result (or_introl Hnone))).
  - by rewrite (proj1 (step_rejected self trial result (or_intror Hnone))).
Qed.

(** X3.  [on_trial_result] writes to the two dictionaries only.  After
    any run the parameters of the object (metric, resource key, mode,
    running-average flag, rank cutoff, grace time, grace population) and
    its configuration space are what they were; with the running average
    off [trial_to_results] is never written; and the history of a trial
    that did not report in the run is what it was. *)
Theorem parameters_never_change self s reports :
  let final := (run self s reports).1.2 in
  same_parameters final self ∧
  config_space final = config_space self ∧
  (running_average self = false → trial_to_results final = trial_to_results self) ∧
  ∀ tid, Forall (λ report, trial_id report.1 ≠ tid) reports →
         history final tid = history self tid.
Proof.
  intros final. subst final. rewrite run_object.
  split; [apply foldl_step_same_parameters|].
  revert self. induction reports as [|report reports IH]; intros self; [done|].
  cbn [foldl]. destruct (IH (step self report)) as (Hcs & Hoff & Hhist).
  destruct (step_frame self report) as (Hcs' & Hoff' & Hhist').
  destruct (step_same_parameters self report) as (_ & _ & _ & Hra & _).
  split_and!.
  - congruence.
  - intros Hfalse. rewrite Hoff by congruence. by apply Hoff'.
  - intros tid [Hne Hrest]%Forall_cons. rewrite Hhist by done. by apply Hhist'.
Qed.
End frames.

Section ranks.
Context `{TrialScheduler Sched}.
Implicit Types (self : MedianStoppingRule) (trial : Trial) (result : Result).
Implicit Types (reports : list (Trial * Result)) (s : Sched).

Lemma Qc_of_nat_pos (n : nat) : 0 < Qc_of_nat (S n).
Proof.
  unfold Qc_of_nat. rewrite <-Z2Qc_inj_0. apply (proj1 (Z2Qc_inj_lt _ _)). lia.
Qed.

Lemma Qc_of_nat_le (i j : nat) : (i ≤ j)%nat → Qc_of_nat i ≤ Qc_of_nat j.
Proof. intros Hle. unfold Qc_of_nat. apply (proj1 (Z2Qc_inj_le _ _)). lia. Qed.

Lemma Qcdiv_mult_cancel (x d : Qc) : 0 < d → x / d * d = x.
Proof.
  intros Hpos. unfold Qcdiv. rewrite <-Qcmult_assoc, (Qcmult_comm (/ d)).
  rewrite Qcmult_inv_r, Qcmult_1_r; [done|].
  intros Heq. rewrite Heq in Hpos. by apply Qclt_not_eq in Hpos.
Qed.

Lemma rank_quotient_mono (i j n : nat) :
  (i ≤ j)%nat → Qc_of_nat i / Qc_of_nat (S n) ≤ Qc_of_nat j / Qc_of_nat (S n).
Proof.
  intros Hle. apply (Qcmult_le_mono_pos_r _ _ _ (Qc_of_nat_pos n)).
  rewrite !Qcdiv_mult_cancel by apply Qc_of_nat_pos. by apply Qc_of_nat_le.
Qed.

Lemma rank_quotient_nonneg (i n : nat) : 0 ≤ Qc_of_nat i / Qc_of_nat (S n).
Proof.
  apply (Qcmult_le_mono_pos_r _ _ _ (Qc_of_nat_pos n)).
  rewrite Qcdiv_mult_cancel, Qcmult_0_l by apply Qc_of_nat_pos.
  rewrite <-Z2Qc_inj_0. apply (Qc_of_nat_le 0). lia.
Qed.

(** [int(x)] of a number in [[0, 100)] is an integer in [[0, 99]]. *)
Lemma py_int_percent (x : Qc) :
  0 ≤ x → x < Qc_of_Z 100 → (0 ≤ py_int x < 100)%Z.
Proof.
  destruct x as [[num den] Hcanon]. unfold Qcle, Qclt, Qle, Qlt, py_int. simpl.
  intros Hnonneg Hlt. split.
  - apply Z.quot_pos; lia.
  - apply Z.quot_lt_upper_bound; lia.
Qed.

(** X4.  For every call that gets to line 105, on any object: the
    insertion index is at most the number of values recorded at the level
    before the call, [normalized_rank] lies in [[0, 1)] and never reaches
    1, and the rank percent that a stop writes to the log is an integer
    from 0 to 99. *)
Theorem normalized_rank_bounds self trial result (m : string) (raw level : Qc) :
  metric self = Some m → result !! m = Some raw →
  result !! resource_attr self = Some level →
  ∃ loc self',
    on_trial_result_rank self trial result = Ret (loc, self') ∧
    (index loc ≤ length (recorded self level))%nat ∧
    0 ≤ normalized_rank loc ∧ normalized_rank loc < 1 ∧
    (0 ≤ log_rank_percent (stop_record self' trial loc) < 100)%Z.
Proof.
  intros Hm Hraw Hlevel.
  exists (locals_of_report self (trial_id trial) raw level),
         (after_report self (trial_id trial) raw level).
  assert (0 ≤ normalized_rank (locals_of_report self (trial_id trial) raw level))
    as Hnonneg by apply rank_quotient_nonneg.
  pose proof (normalized_rank_lt_1 self (trial_id trial) raw level) as Hlt.
  split; [by apply on_trial_result_rank_eq with m|].
  split; [apply searchsorted_le_length|].
  split; [done|]. split; [done|].
  - cbn [log_rank_percent stop_record]. apply py_int_percent.
    + apply (Qcmult_le_mono_pos_r _ _ (Qc_of_Z 100)) in Hnonneg; [|done].
      by rewrite Qcmult_0_l in Hnonneg.
    + apply (Qcmult_lt_mono_pos_r _ _ (Qc_of_Z 100)) in Hlt; [|done].
      by rewrite Qcmult_1_l in Hlt.
Qed.

Lemma verdict_cases self trial result :
  carries_keys self (trial, result) →
  verdict (on_trial_result self trial result) = Some Delegated ∨
  verdict (on_trial_result self trial result) = Some Stopped.
Proof.
  intros [[raw Hraw] [level Hlevel]]. simpl in *.
  destruct (metric self) as [m|] eqn:Hm; [|done]. simpl in Hraw.
  rewrite (verdict_on_trial_result self trial result m raw level) by done.
  case_bool_decide; eauto.
Qed.

Lemma verdict_no_keys self trial result :
  ¬ carries_keys self (trial, result) →
  ∃ key, verdict (on_trial_result self trial result) = Some (Failed (KeyError key)).
Proof.
  intros Hno.
  destruct (on_trial_result_shape self trial result)
    as [Heq|[[r Heq]|(key & -> & _)]]; [| |by eauto].
  - destruct (report_cases self result)
      as [(m & raw & level & Hm & Hraw & Hlevel)|[Hnone|(raw & Hraw & Hnone)]].
    + destruct Hno. split; simpl; [rewrite Hm; simpl|]; eauto.
    + unfold on_trial_result in Heq.
      by rewrite on_trial_result_rank_KeyError_metric in Heq.
    + unfold on_trial_result in Heq.
      by erewrite on_trial_result_rank_KeyError_resource in Heq.
  - destruct (report_cases self result)
      as [(m & raw & level & Hm & Hraw & Hlevel)|[Hnone|(raw & Hraw & Hnone)]].
    + destruct Hno. split; simpl; [rewrite Hm; simpl|]; eauto.
    + unfold on_trial_result in Heq.
      by rewrite on_trial_result_rank_KeyError_metric in Heq.
    + unfold on_trial_result in Heq.
      by erewrite on_trial_result_rank_KeyError_resource in Heq.
Qed.

Lemma carries_keys_same self1 self2 report :
  same_parameters self2 self1 → carries_keys self1 report → carries_keys self2 report.
Proof. intros (Hm & Hr & _). unfold carries_keys. by rewrite Hm, Hr. Qed.

(** Reports that carry both keys and are never stopped are all delegated. *)
Lemma verdicts_all_delegated self reports :
  Forall (carries_keys self) reports →
  Forall (λ v, v ≠ Some Stopped) (verdicts self reports) →
  Forall (λ v, v = Some Delegated) (verdicts self reports).
Proof.
  revert self. induction reports as [|[trial result] reports IH];
    intros self Hkeys Hnostop; [constructor|].
  apply Forall_cons in Hkeys as [Hk Hkeys]. cbn [verdicts] in *.
  apply Forall_cons in Hnostop as [Hn Hnostop]. constructor.
  - destruct (verdict_cases self trial result Hk); done.
  - apply IH; [|done]. eapply Forall_impl; [exact Hkeys|].
    intros report. apply carries_keys_same, step_same_parameters.
Qed.
End ranks.

Section rank_order.
Context `{TrialScheduler Sched}.
Implicit Types (self : MedianStoppingRule) (trial : Trial) (result : Result).
Implicit Types (reports : list (Trial * Result)) (s : Sched).

(** A call that gets to line 105 was given both keys, and its locals and
    object are the ones of [locals_of_report] and [after_report]. *)
Lemma on_trial_result_rank_inv self trial result loc self' :
  on_trial_result_rank self trial result = Ret (loc, self') →
  ∃ m raw level,
    metric self = Some m ∧ result !! m = Some raw ∧
    result !! resource_attr self = Some level ∧
    loc = locals_of_report self (trial_id trial) raw level ∧
    self' = after_report self (trial_id trial) raw level.
Proof.
  intros Heq.
  destruct (report_cases self result)
    as [(m & raw & level & Hm & Hraw & Hlevel)|[Hnone|(raw & Hraw & Hnone)]].
  - rewrite (on_trial_result_rank_eq _ _ _ _ _ _ Hm Hraw Hlevel) in Heq.
    injection Heq as <- <-. by exists m, raw, level.
  - by rewrite on_trial_result_rank_KeyError_metric in Heq.
  - by erewrite on_trial_result_rank_KeyError_resource in Heq.
Qed.

Lemma count_below_mono (a : list Qc) (v1 v2 : Qc) :
  v1 ≤ v2 → (count_below a v1 ≤ count_below a v2)%nat.
Proof.
  intros Hle. unfold count_below.
  induction a as [|x a IH]; [done|].
  rewrite !filter_cons.
  destruct (decide (x < v1)) as [Hx|Hx].
  - rewrite decide_True by (by apply Qclt_le_trans with v1). simpl. lia.
  - case_decide; simpl; lia.
Qed.

(** X5.  On an object whose lists are ascending, as every object reached
    from a fresh one is, the insertion index of a call is the number of
    values recorded at the level that are strictly below the value being
    ranked: equal values count as not below, so the value goes in front of
    its ties.  [normalized_rank] is that number over the number of values
    recorded, the new one included. *)
Theorem rank_counts_values_below self s (pre : list (Trial * Result))
    trial result loc self' :
  sorted_invariant self →
  let now := (run self s pre).1.2 in
  on_trial_result_rank now trial result = Ret (loc, self') →
  index loc = count_below (recorded now (time_step loc)) (new_metric loc) ∧
  normalized_rank loc =
    Qc_of_nat (count_below (recorded now (time_step loc)) (new_metric loc))
    / Qc_of_nat (S (length (recorded now (time_step loc)))) ∧
  Forall (λ x, x < new_metric loc) (take (index loc) (recorded now (time_step loc))) ∧
  Forall (λ x, new_metric loc ≤ x) (drop (index loc) (recorded now (time_step loc))).
Proof.
  intros Hinv now. subst now. rewrite run_object.
  set (now := foldl step self pre). intros Hrank.
  apply on_trial_result_rank_inv in Hrank
    as (m & raw & level & _ & _ & _ & -> & _).
  cbn [index time_step new_metric normalized_rank locals_of_report].
  pose proof (foldl_step_sorted_invariant self pre Hinv level) as Hsort.
  fold now in Hsort.
  rewrite searchsorted_sorted by done.
  split_and!; [done|done| |].
  - rewrite <-searchsorted_sorted by done. by apply searchsorted_split.
  - rewrite <-searchsorted_sorted by done. by apply searchsorted_split.
Qed.

(** X6.  On an object whose list at the level is ascending, of two
    reports at that level the one with the lower value to rank never gets
    the higher index or rank; and if the report with the higher value is
    handed to the wrapped scheduler, so is the one with the lower value. *)
Theorem better_value_never_ranks_worse self trial1 trial2 result1 result2
    loc1 loc2 self1 self2 :
  on_trial_result_rank self trial1 result1 = Ret (loc1, self1) →
  on_trial_result_rank self trial2 result2 = Ret (loc2, self2) →
  time_step loc1 = time_step loc2 →
  StronglySorted Qcle (recorded self (time_step loc1)) →
  new_metric loc1 ≤ new_metric loc2 →
  (index loc1 ≤ index loc2)%nat ∧
  normalized_rank loc1 ≤ normalized_rank loc2 ∧
  (verdict (on_trial_result self trial2 result2) = Some Delegated →
   verdict (on_trial_result self trial1 result1) = Some Delegated).
Proof.
  intros Hrank1 Hrank2 Hlevel Hsort Hle.
  apply on_trial_result_rank_inv in Hrank1
    as (m1 & raw1 & level1 & Hm1 & Hraw1 & Hlevel1 & -> & _).
  apply on_trial_result_rank_inv in Hrank2
    as (m2 & raw2 & level2 & Hm2 & Hraw2 & Hlevel2 & -> & _).
  cbn [index time_step new_metric normalized_rank locals_of_report] in *.
  subst level2.
  assert (np.searchsorted (recorded self level1)
            (effective_value self (trial_id trial1) raw1)
          ≤ np.searchsorted (recorded self level1)
              (effective_value self (trial_id trial2) raw2))%nat as Hindex.
  { rewrite !searchsorted_sorted by done. by apply count_below_mono. }
  pose proof (rank_quotient_mono _ _ (length (recorded self level1)) Hindex)
    as Hmono.
  split_and!; [done|done|].
  rewrite (verdict_on_trial_result self trial1 result1 m1 raw1 level1) by done.
  rewrite (verdict_on_trial_result self trial2 result2 m2 raw2 level1) by done.
  cbn [normalized_rank locals_of_report].
  match goal with
  | |- Some (if bool_decide ?P2 then _ else _) = _ →
       Some (if bool_decide ?P1 then _ else _) = _ =>
      assert (P2 → P1) as Himp; [|destruct (decide P2) as [Hyes|Hno]]
  end.
  - rewrite !grace_holds_after_report. intros [Hg|Hr]; [by left|].
    right. by etrans.
  - intros _. by rewrite bool_decide_eq_true_2 by auto.
  - by rewrite (bool_decide_eq_false_2 _ Hno).
Qed.

(** X7.  A value that no recorded value of its level is below (the first
    value of a level, a new minimum, or a tie with the minimum) goes to the
    front of the list: index 0, [normalized_rank = 0].  With a rank cutoff
    that is not negative its trial is never stopped. *)
Theorem minimum_goes_first self trial result loc self' :
  on_trial_result_rank self trial result = Ret (loc, self') →
  Forall (λ x, new_metric loc ≤ x) (recorded self (time_step loc)) →
  index loc = 0%nat ∧ normalized_rank loc = 0 ∧
  recorded self' (time_step loc) = new_metric loc :: recorded self (time_step loc) ∧
  (0 ≤ rank_cutoff self →
   verdict (on_trial_result self trial result) = Some Delegated).
Proof.
  intros Hrank Hmin.
  apply on_trial_result_rank_inv in Hrank
    as (m & raw & level & Hm & Hraw & Hlevel & -> & ->).
  cbn [index time_step new_metric normalized_rank locals_of_report] in *.
  pose proof (searchsorted_front _ _ Hmin) as Hi.
  assert (Qc_of_nat 0 / Qc_of_nat (S (length (recorded self level))) = 0) as Hzero.
  { unfold Qcdiv. apply Qcmult_0_l. }
  split_and!.
  - done.
  - by rewrite Hi.
  - rewrite recorded_after_report. unfold inserted. by rewrite Hi, drop_0.
  - intros Hcut.
    rewrite (verdict_on_trial_result self trial result m raw level) by done.
    cbn [normalized_rank locals_of_report]. rewrite Hi, Hzero.
    by rewrite bool_decide_eq_true_2 by (by right).
Qed.
End rank_order.

Section never_stopped.
Context `{TrialScheduler Sched}.
Implicit Types (self : MedianStoppingRule) (trial : Trial) (result : Result).
Implicit Types (reports : list (Trial * Result)) (s : Sched).

(** A condition on the object that [step] keeps and that rules out a stop
    rules out every stop of a run. *)
Lemma verdicts_never_stopped (P : MedianStoppingRule → list (Trial * Result) → Prop)
    self reports :
  (∀ self report reports, P self (report :: reports) →
     verdict (on_trial_result self report.1 report.2) ≠ Some Stopped ∧
     P (step self report) reports) →
  P self reports →
  Forall (λ v, v ≠ Some Stopped) (verdicts self reports).
Proof.
  intros Hstep. revert self.
  induction reports as [|report reports IH]; intros self HP; [constructor|].
  destruct (Hstep self report reports HP) as [Hv HP'].
  cbn [verdicts]. constructor; [done|]. by apply IH.
Qed.

Lemma verdict_not_stopped self trial result :
  (∀ m raw level,
     metric self = Some m → result !! m = Some raw →
     result !! resource_attr self = Some level →
     grace_holds (after_report self (trial_id trial) raw level) level ∨
     normalized_rank (locals_of_report self (trial_id trial) raw level)
       ≤ rank_cutoff self) →
  verdict (on_trial_result self trial result) ≠ Some Stopped.
Proof.
  intros Hok.
  destruct (decide (carries_keys self (trial, result))) as [Hk|Hk].
  - destruct Hk as [[raw Hraw] [level Hlevel]]. simpl in *.
    destruct (metric self) as [m|] eqn:Hm; [|done]. simpl in Hraw.
    rewrite (verdict_on_trial_result self trial result m raw level) by done.
    by rewrite bool_decide_eq_true_2 by eauto.
  - destruct (verdict_no_keys self trial result Hk) as [key ->]. done.
Qed.

(** X8.  With [rank_cutoff >= 1] the wrapper never stops a trial, on any
    object and for any reports, since the rank stays below 1.  If moreover
    all reports carry both keys, the wrapper is transparent: the decisions
    returned and the final state of the wrapped scheduler are those of the
    wrapped scheduler asked directly. *)
Theorem cutoff_at_least_one_is_transparent self s reports :
  1 ≤ rank_cutoff self →
  Forall (λ v, v ≠ Some Stopped) (verdicts self reports) ∧
  (Forall (carries_keys self) reports →
   (run self s reports).1.1.*1 = inr <$> (asked_directly s reports).1 ∧
   (run self s reports).2 = (asked_directly s reports).2).
Proof.
  intros Hcut.
  assert (Forall (λ v, v ≠ Some Stopped) (verdicts self reports)) as Hnostop.
  { apply (verdicts_never_stopped (λ self _, 1 ≤ rank_cutoff self)); [|done].
    clear. intros self [trial result] reports Hcut. split.
    - apply verdict_not_stopped. intros m raw level _ _ _. right.
      apply Qclt_le_weak, Qclt_le_trans with 1; [|done].
      apply normalized_rank_lt_1.
    - destruct (step_same_parameters self (trial, result))
        as (_ & _ & _ & _ & -> & _). done. }
  split; [done|]. intros Hkeys.
  destruct (run_all_delegated self s reports) as (Hd & Hs & _); [|done].
  by apply verdicts_all_delegated.
Qed.

Lemma step_recorded_length self report level :
  (length (recorded (step self report) level) ≤ S (length (recorded self level)))%nat.
Proof.
  destruct report as [trial result].
  destruct (report_cases self result)
    as [(m & raw & level' & Hm & Hraw & Hlevel)|[Hnone|(raw & Hraw & Hnone)]].
  - rewrite (proj1 (step_accepted _ _ _ _ _ _ Hm Hraw Hlevel)).
    destruct (decide (level' = level)) as [->|Hne].
    + by rewrite recorded_after_report, length_inserted.
    + rewrite recorded_after_report_ne by done. lia.
  - rewrite (proj1 (step_rejected self trial result (or_introl Hnone))). lia.
  - rewrite (proj1 (step_rejected self trial result (or_intror Hnone))). lia.
Qed.

(** X9.  With [grace_population = n], no report of a run is stopped as
    long as every level holds fewer than [n] values at the end of the run,
    counting what was recorded before and at most one value per report.
    On a fresh object: none of the first [n - 1] reports is stopped,
    whatever their values and levels. *)
Theorem grace_population_protects_first_reports self reports (n : Z) :
  min_samples_required self = Some n →
  (∀ level, (Z.of_nat (length (recorded self level) + length reports) < n)%Z) →
  Forall (λ v, v ≠ Some Stopped) (verdicts self reports).
Proof.
  intros Hn Hfew.
  apply (verdicts_never_stopped
           (λ self reports,
              min_samples_required self = Some n ∧
              ∀ level, (Z.of_nat (length (recorded self level) + length reports) < n)%Z));
    [|done].
  clear. intros self [trial result] reports [Hn Hfew]. split_and!.
  - apply verdict_not_stopped. intros m raw level _ _ _. left.
    apply grace_holds_after_report. left. exists n. split; [done|].
    specialize (Hfew level). simpl in Hfew. lia.
  - destruct (step_same_parameters self (trial, result))
      as (_ & _ & _ & _ & _ & _ & ->). done.
  - intros level. specialize (Hfew level). simpl in Hfew.
    pose proof (step_recorded_length self (trial, result) level). lia.
Qed.
End never_stopped.

Section order.
Context `{TrialScheduler Sched}.
Implicit Types (self : MedianStoppingRule) (trial : Trial) (result : Result).
Implicit Types (reports : list (Trial * Result)) (s : Sched).

Lemma raw_value_at_same level self1 self2 report :
  same_parameters self1 self2 →
  raw_value_at level self1 report = raw_value_at level self2 report.
Proof.
  intros (Hm & Hr & Hmode & _). unfold raw_value_at. rewrite Hm, Hr.
  destruct (metric self2 ≫= _); [|done].
  destruct (report.2 !! _); [|done].
  by rewrite (sign_adjusted_same self1 self2).
Qed.

Lemma omap_raw_value_at_same level self1 self2 reports :
  same_parameters self1 self2 →
  omap (raw_value_at level self1) reports = omap (raw_value_at level self2) reports.
Proof.
  intros Hsame. induction reports as [|report reports IH]; [done|].
  change (omap ?f (report :: reports))
    with (match f report with
          | Some y => y :: omap f reports
          | None => omap f reports
          end).
  by rewrite IH, (raw_value_at_same level self1 self2).
Qed.

Lemma values_at_running_average_off level self reports :
  running_average self = false →
  values_at level self reports = omap (raw_value_at level self) reports.
Proof.
  revert self. induction reports as [|[trial result] reports IH];
    intros self Hoff; [done|].
  pose proof (step_same_parameters self (trial, result)) as Hsame.
  assert (values_at level (step self (trial, result)) reports
          = omap (raw_value_at level self) reports) as Htail.
  { rewrite IH; [by apply omap_raw_value_at_same|].
    destruct Hsame as (_ & _ & _ & -> & _). done. }
  change (omap ?f ((trial, result) :: reports))
    with (match f (trial, result) with
          | Some y => y :: omap f reports
          | None => omap f reports
          end).
  cbn [values_at]. rewrite !Htail. clear IH Htail Hsame.
  unfold raw_value_at at 4. cbn [snd].
  destruct (report_cases self result)
    as [(m & raw & level' & Hm & Hraw & Hlevel)|[Hnone|(raw & Hraw & Hnone)]].
  - destruct (step_accepted self trial result _ _ _ Hm Hraw Hlevel) as [_ ->].
    cbn [time_step new_metric locals_of_report].
    rewrite Hm. simpl. rewrite Hraw, Hlevel.
    unfold effective_value. rewrite Hoff. by case_decide.
  - destruct (step_rejected self trial result (or_introl Hnone)) as [_ ->].
    by rewrite Hnone.
  - destruct (step_rejected self trial result (or_intror Hnone)) as [_ ->].
    rewrite Hraw, Hnone. done.
Qed.

(** X10.  With the running average off, [sorted_results] does not depend
    on the order in which the reports arrive: from an object whose lists
    are ascending, two runs over the same reports in different orders end
    with the same list at every level. *)
Theorem recorded_does_not_depend_on_order self s1 s2 reports1 reports2 level :
  sorted_invariant self →
  running_average self = false →
  reports1 ≡ₚ reports2 →
  recorded (run self s1 reports1).1.2 level = recorded (run self s2 reports2).1.2 level.
Proof.
  intros Hinv Hoff Hperm. rewrite !run_object.
  apply (StronglySorted_unique Qcle);
    [by apply foldl_step_sorted_invariant..|].
  rewrite !recorded_foldl_step, !values_at_running_average_off by done.
  by rewrite Hperm.
Qed.

(** X11.  With the running average on, after any run the history of every
    trial is what it was followed by the sign-adjusted values of its
    reports that carried both keys, in report order: reports of other
    trials, and reports that raised [KeyError], leave no trace in it. *)
Theorem history_after_run self s reports (tid : Z) :
  running_average self = true →
  let final := (run self s reports).1.2 in
  history final tid = history self tid ++ reported_by tid self reports ∧
  length (history final tid) =
    (length (history self tid) + length (reported_by tid self reports))%nat.
Proof.
  intros Hon final. subst final. rewrite run_object.
  rewrite history_foldl_step by done. by rewrite length_app.
Qed.
End order.

Section fresh.
Context `{TrialScheduler Sched}.

(** X12.  [__init__] reads the configuration space of the wrapped
    scheduler, then its [metric] attribute only if no metric was given,
    then its mode, in this order and nothing else; the object it returns
    holds that configuration space and that mode, has no value recorded at
    any level and no history for any trial. *)
Theorem init_fresh_object (s : Sched) (resource_attr : string) (ra : bool)
    (metric_arg : option string) (gt gp : option Z) (rc : Qc) :
  ∃ self,
    exec (__init__ resource_attr ra metric_arg gt gp rc) s =
      (inr self, (impl_metric_mode s).2,
       Called Scheduler.config_space (impl_config_space s)
       :: match metric_arg with
          | None => [Called Scheduler.getattr_metric (impl_getattr_metric s)]
          | Some _ => []
          end
       ++ [Called Scheduler.metric_mode (impl_metric_mode s).1]) ∧
    config_space self = impl_config_space s ∧
    mode self = (impl_metric_mode s).1 ∧
    (∀ level, recorded self level = []) ∧
    (∀ tid, history self tid = []) ∧
    sorted_invariant self.
Proof.
  exists {| config_space := impl_config_space s;
            metric :=
              match metric_arg with
              | Some m => Some m
              | None =>
                  match impl_getattr_metric s with
                  | Some v => v
                  | None => None
                  end
              end;
            sorted_results := ∅;
            resource_attr := resource_attr; rank_cutoff := rc;
            grace_time := gt; min_samples_required := gp;
            running_average := ra; trial_to_results := ∅;
            mode := (impl_metric_mode s).1 |}.
  split.
  - unfold __init__. destruct metric_arg as [m|]; simpl.
    + by destruct (impl_metric_mode s) as [md s'].
    + by destruct (impl_getattr_metric s) as [v|];
        destruct (impl_metric_mode s) as [md s'].
  - split_and!; try done. by apply sorted_invariant_empty.
Qed.
End fresh.

Section modes.
Implicit Types (self : MedianStoppingRule) (trial : Trial) (result : Result).
Implicit Types (reports : list (Trial * Result)).

Lemma after_report_set_mode self md tid raw level :
  mode self = "max" → md ≠ "max" →
  after_report (set_mode self md) tid (- raw) level
  = set_mode (after_report self tid raw level) md ∧
  locals_of_report (set_mode self md) tid (- raw) level
  = locals_of_report self tid raw level.
Proof.
  intros Hmax Hmd.
  assert (sign_adjusted (set_mode self md) (- raw) = sign_adjusted self raw) as Hsign.
  { unfold sign_adjusted. cbn [mode set_mode].
    rewrite decide_False, decide_True by done. ring. }
  assert (effective_value (set_mode self md) tid (- raw)
          = effective_value self tid raw) as Hv.
  { unfold effective_value. by rewrite Hsign. }
  split.
  - unfold after_report. rewrite Hv, Hsign. reflexivity.
  - unfold locals_of_report. rewrite Hv. reflexivity.
Qed.

Lemma step_negated self md m report :
  metric self = Some m → m ≠ resource_attr self →
  mode self = "max" → md ≠ "max" →
  step (set_mode self md) (negated m report) = set_mode (step self report) md ∧
  verdict (on_trial_result (set_mode self md) (negated m report).1 (negated m report).2)
  = verdict (on_trial_result self report.1 report.2).
Proof.
  intros Hm Hne Hmax Hmd. destruct report as [trial result].
  unfold negated. cbn [fst snd].
  destruct (result !! m) as [raw|] eqn:Hraw;
    [destruct (result !! resource_attr self) as [level|] eqn:Hlevel|].
  - assert (alter Qcopp m result !! m = Some (- raw)) as Hraw'.
    { by rewrite lookup_alter_eq, Hraw. }
    assert (alter Qcopp m result !! resource_attr self = Some level) as Hlevel'.
    { by rewrite lookup_alter_ne. }
    destruct (after_report_set_mode self md (trial_id trial) raw level Hmax Hmd)
      as [Hafter Hloc].
    split.
    + rewrite (proj1 (step_accepted (set_mode self md) trial _ m (- raw) level
                        Hm Hraw' Hlevel')).
      by rewrite (proj1 (step_accepted self trial result m raw level Hm Hraw Hlevel)).
    + rewrite (verdict_on_trial_result (set_mode self md) trial _ m (- raw) level)
        by done.
      rewrite (verdict_on_trial_result self trial result m raw level) by done.
      rewrite Hafter, Hloc. done.
  - assert (alter Qcopp m result !! resource_attr self = None) as Hlevel'.
    { by rewrite lookup_alter_ne. }
    assert (alter Qcopp m result !! m = Some (- raw)) as Hraw'.
    { by rewrite lookup_alter_eq, Hraw. }
    split.
    + rewrite (proj1 (step_rejected (set_mode self md) trial _ (or_intror Hlevel'))).
      by rewrite (proj1 (step_rejected self trial result (or_intror Hlevel))).
    + unfold on_trial_result.
      rewrite (on_trial_result_rank_KeyError_resource (set_mode self md) trial _ (- raw));
        [|by cbn [metric set_mode]; rewrite Hm|done].
      rewrite (on_trial_result_rank_KeyError_resource self trial result raw);
        [done|by rewrite Hm|done].
  - assert (metric self ≫= (result !!.) = None) as Hnone by (by rewrite Hm).
    assert (metric (set_mode self md) ≫= (alter Qcopp m result !!.) = None)
      as Hnone'.
    { cbn [metric set_mode]. rewrite Hm. simpl. by rewrite lookup_alter_eq, Hraw. }
    split.
    + rewrite (proj1 (step_rejected (set_mode self md) trial _ (or_introl Hnone'))).
      by rewrite (proj1 (step_rejected self trial result (or_introl Hnone))).
    + unfold on_trial_result.
      rewrite on_trial_result_rank_KeyError_metric by done.
      by rewrite on_trial_result_rank_KeyError_metric by done.
Qed.

(** X13.  Mode "max" is any other mode on negated values.  For an object
    of mode "max" whose metric key is not also its resource key: the same
    object with its mode set to anything but "max", fed the same reports
    with the metric value negated, gives the same verdicts, report by
    report, and ends with the same two dictionaries. *)
Theorem max_mode_is_min_mode_on_negated_values self (md m : string) reports :
  metric self = Some m → m ≠ resource_attr self →
  mode self = "max" → md ≠ "max" →
  verdicts (set_mode self md) (negated m <$> reports) = verdicts self reports ∧
  foldl step (set_mode self md) (negated m <$> reports)
  = set_mode (foldl step self reports) md.
Proof.
  intros Hm Hne Hmax Hmd. revert self Hm Hne Hmax.
  induction reports as [|report reports IH]; intros self Hm Hne Hmax; [done|].
  destruct (step_negated self md m report Hm Hne Hmax Hmd) as [Hstep Hverdict].
  destruct (step_same_parameters self report) as (Hm' & Hr' & Hmode' & _).
  destruct (IH (step self report)) as [IHv IHs]; [congruence..|].
  cbn [fmap list_fmap verdicts foldl].
  change (list_fmap _ _ (negated m) reports) with (negated m <$> reports).
  rewrite Hstep, Hverdict. split; [by f_equal|done].
Qed.
End modes.

(* ===================================================================== *)
(** * Properties of syne_tune/util.py *)
(* ===================================================================== *)

Section util_lists.
Implicit Types (lst : list Qc) (x : Qc).

Lemma is_increasing_cons x y lst :
  util.is_increasing (x :: y :: lst)
  = bool_decide (x < y) && util.is_increasing (y :: lst).
Proof. done. Qed.

Lemma is_increasing_Sorted lst :
  util.is_increasing lst = true ↔ Sorted Qclt lst.
Proof.
  induction lst as [|x [|y lst] IH].
  - split; [constructor|done].
  - split; [repeat constructor|done].
  - rewrite is_increasing_cons, andb_true_iff, bool_decide_eq_true, IH.
    split.
    + intros [Hxy Hs]. constructor; [done|]. by constructor.
    + intros Hs. inversion Hs as [|?? Hs' Hhd]; subst.
      inversion Hhd; subst. done.
Qed.

(** X14.  [is_increasing] compares neighbours only, yet it answers [True]
    exactly for the lists in which every entry is strictly below every
    later entry; such a list has no entry twice.  The empty list and the
    lists of one entry are increasing. *)
Theorem is_increasing_all_pairs lst :
  (util.is_increasing lst = true ↔
   ∀ i j x y, lst !! i = Some x → lst !! j = Some y → (i < j)%nat → x < y) ∧
  (util.is_increasing lst = true → NoDup lst) ∧
  util.is_increasing [] = true ∧ ∀ x, util.is_increasing [x] = true.
Proof.
  assert (util.is_increasing lst = true ↔ StronglySorted Qclt lst) as Hstrong.
  { rewrite is_increasing_Sorted. split.
    - apply Sorted_StronglySorted. intros x y z. apply Qclt_trans.
    - apply StronglySorted_Sorted. }
  assert (StronglySorted Qclt lst ↔
          ∀ i j x y, lst !! i = Some x → lst !! j = Some y → (i < j)%nat → x < y)
    as Hpairs.
  { clear Hstrong. induction lst as [|z lst IH].
    - split; [|constructor]. intros _ i j x y Hi. by rewrite lookup_nil in Hi.
    - rewrite StronglySorted_cons, IH. split.
      + intros [Hall Hrest] [|i] [|j] x y Hi Hj Hlt; simpl in *; try lia.
        * injection Hi as <-. rewrite Forall_forall in Hall.
          apply Hall. by eapply list_elem_of_lookup_2.
        * apply (Hrest i j); [done|done|lia].
      + intros Hall. split.
        * apply Forall_forall. intros y [j Hj]%list_elem_of_lookup_1.
          apply (Hall 0%nat (S j)); [done|done|lia].
        * intros i j x y Hi Hj Hlt. apply (Hall (S i) (S j)); [done|done|lia]. }
  split_and!; [by rewrite Hstrong| |done|done].
  intros Hinc. apply Hstrong in Hinc. clear Hstrong Hpairs.
  induction Hinc as [|x lst _ IH Hall]; constructor; [|done].
  intros Hin. rewrite Forall_forall in Hall.
  by apply Hall, Qclt_not_eq in Hin.
Qed.

Lemma py_int_of_Z (n : Z) : py_int (Qc_of_Z n) = n.
Proof. unfold py_int. simpl. apply Z.quot_1_r. Qed.

(** X15.  [is_positive_integer] answers [True] exactly when every entry is
    a whole number that is at least 1, whether it is held as an [int] or
    not; in particular on the empty list. *)
Theorem is_positive_integer_spec lst :
  util.is_positive_integer lst = true ↔
  Forall (λ x, ∃ n : Z, (1 ≤ n)%Z ∧ x = Qc_of_Z n) lst.
Proof.
  unfold util.is_positive_integer. rewrite forallb_forall, Forall_forall.
  split.
  - intros Hall x Hx. apply list_elem_of_In in Hx. specialize (Hall x Hx).
    apply andb_true_iff in Hall as [Hint Hpos].
    apply bool_decide_eq_true in Hint, Hpos.
    exists (py_int x). split; [|done].
    rewrite Hint in Hpos. rewrite <-Z2Qc_inj_1 in Hpos.
    by apply Z2Qc_inj_le in Hpos.
  - intros Hall x Hx. apply list_elem_of_In in Hx.
    destruct (Hall x Hx) as (n & Hn & ->).
    apply andb_true_iff. split; apply bool_decide_eq_true.
    + by rewrite py_int_of_Z.
    + rewrite <-Z2Qc_inj_1. by apply (proj1 (Z2Qc_inj_le _ _)).
Qed.
End util_lists.

Section util_callback.
Implicit Types (self : util.RegularCallback).

Lemma timedelta_seconds_range (later earlier : Z) :
  (0 ≤ util.timedelta_seconds later earlier < 86400)%Z.
Proof. unfold util.timedelta_seconds. apply Z.mod_pos_bound. lia. Qed.

Lemma timedelta_seconds_le (later earlier : Z) :
  (earlier ≤ later)%Z →
  (util.timedelta_seconds later earlier * 1000000 ≤ later - earlier)%Z.
Proof.
  intros Hle. unfold util.timedelta_seconds.
  assert (0 ≤ (later - earlier) `div` 1000000)%Z as Hq
    by (apply Z.div_pos; lia).
  pose proof (Z.mod_le _ 86400 Hq ltac:(lia)) as Hmod.
  pose proof (Z.mul_div_le (later - earlier) 1000000 ltac:(lia)). lia.
Qed.

(** X16.  When [__call__] calls the callback and the clock has not gone
    back since the time the object remembers, more than [frequency]
    seconds lie between that time and the reading of the clock: the
    callback runs at most once every [frequency] seconds.  The object then
    remembers the second reading of the clock, and the frequency stays.
    When the callback is not called the object is unchanged. *)
Theorem regular_callback_rate self (now1 now2 : Z) :
  (util.time_last_recent_call self ≤ now1)%Z →
  ((util.RegularCallback_call self now1 now2).1 = true →
   util.frequency self * Qc_of_Z 1000000
     < Qc_of_Z (now1 - util.time_last_recent_call self) ∧
   util.time_last_recent_call (util.RegularCallback_call self now1 now2).2 = now2 ∧
   util.frequency (util.RegularCallback_call self now1 now2).2 = util.frequency self) ∧
  ((util.RegularCallback_call self now1 now2).1 = false →
   (util.RegularCallback_call self now1 now2).2 = self).
Proof.
  intros Hclock. unfold util.RegularCallback_call.
  case_bool_decide as Hfreq; cbn [fst snd]; split; try done.
  intros _. split; [|done].
  apply Qclt_le_trans
    with (Qc_of_Z (util.timedelta_seconds now1 (util.time_last_recent_call self))
          * Qc_of_Z 1000000).
  - by apply Qcmult_lt_mono_pos_r.
  - rewrite <-Z2Qc_inj_mul. apply (proj1 (Z2Qc_inj_le _ _)).
    by apply timedelta_seconds_le.
Qed.

(** X17.  [__call__] looks at the seconds field of the time difference,
    which drops whole days.  So a [frequency] of 86399 seconds or more is
    never exceeded and the callback is never called, whatever the clock
    reads; and after any whole number of days plus a rest of at most
    [frequency] seconds the callback is not called either. *)
Theorem regular_callback_drops_days self (now1 now2 : Z) :
  (Qc_of_Z 86399 ≤ util.frequency self →
   util.RegularCallback_call self now1 now2 = (false, self)) ∧
  (∀ days rest : Z,
     (0 ≤ rest < 86400000000)%Z →
     now1 = (util.time_last_recent_call self + days * 86400000000 + rest)%Z →
     Qc_of_Z (rest `div` 1000000) ≤ util.frequency self →
     util.RegularCallback_call self now1 now2 = (false, self)).
Proof.
  split.
  - intros Hfreq. unfold util.RegularCallback_call.
    rewrite bool_decide_eq_false_2; [done|].
    apply Qcle_not_lt. etrans; [|exact Hfreq].
    apply (proj1 (Z2Qc_inj_le _ _)).
    pose proof (timedelta_seconds_range now1 (util.time_last_recent_call self)).
    lia.
  - intros days rest Hrest -> Hfreq. unfold util.RegularCallback_call.
    rewrite bool_decide_eq_false_2; [done|].
    apply Qcle_not_lt. etrans; [|exact Hfreq].
    apply (proj1 (Z2Qc_inj_le _ _)). unfold util.timedelta_seconds.
    replace (util.time_last_recent_call self + days * 86400000000 + rest
             - util.time_last_recent_call self)%Z
      with (rest + (days * 86400) * 1000000)%Z by lia.
    rewrite Z.div_add by lia.
    rewrite Z.add_comm, Z.mul_comm, Z.add_comm, Z.mul_comm.
    rewrite Z.mod_add by lia.
    rewrite Z.mod_small; [lia|].
    split; [apply Z.div_pos; lia|].
    apply Z.div_lt_upper_bound; lia.
Qed.
End util_callback.

Section extremes.
Context `{TrialScheduler Sched}.
Implicit Types (self : MedianStoppingRule) (trial : Trial) (result : Result).
Implicit Types (reports : list (Trial * Result)) (s : Sched).

Lemma rank_quotient_zero (n : nat) : Qc_of_nat 0 / Qc_of_nat (S n) = 0.
Proof. unfold Qcdiv. apply Qcmult_0_l. Qed.

(** A value above everything goes to the end, on any array. *)
Lemma binsearch_left_back fuel (a : list Qc) (v : Qc) (lo hi : nat) :
  Forall (λ x, x < v) a → (lo ≤ hi ≤ length a)%nat → (hi - lo ≤ fuel)%nat →
  np.binsearch_left fuel a v lo hi = hi.
Proof.
  intros Hall. revert lo.
  induction fuel as [|fuel IH]; intros lo Hle Hfuel;
    cbn [np.binsearch_left]; cbv zeta; [lia|].
  case_decide as Hlt; [|lia].
  destruct (halving_mid lo hi Hlt) as [Hm1 Hm2].
  set (mid := (lo + (hi - lo) / 2)%nat) in *. clearbody mid.
  destruct (a !! mid) as [x|] eqn:Hx; last first.
  { apply lookup_ge_None in Hx. lia. }
  rewrite decide_True; [apply IH; lia|].
  rewrite Forall_forall in Hall. apply Hall. by eapply list_elem_of_lookup_2.
Qed.

Lemma searchsorted_back (a : list Qc) (v : Qc) :
  Forall (λ x, x < v) a → np.searchsorted a v = length a.
Proof. intros Hall. apply binsearch_left_back; [done|lia|lia]. Qed.

(** X18.  A value strictly above every value recorded at its level goes
    to the end of the list: its index is the number [n] of values recorded
    before, and [normalized_rank = n / (n + 1)].  Its trial is stopped
    exactly when the grace condition fails and [rank_cutoff < n / (n + 1)]. *)
Theorem worst_value_goes_last self trial result loc self' :
  on_trial_result_rank self trial result = Ret (loc, self') →
  Forall (λ x, x < new_metric loc) (recorded self (time_step loc)) →
  let n := length (recorded self (time_step loc)) in
  index loc = n ∧
  normalized_rank loc = Qc_of_nat n / Qc_of_nat (S n) ∧
  recorded self' (time_step loc) = recorded self (time_step loc) ++ [new_metric loc] ∧
  (verdict (on_trial_result self trial result) = Some Stopped ↔
   ¬ grace_holds self' (time_step loc) ∧
   rank_cutoff self < Qc_of_nat n / Qc_of_nat (S n)).
Proof.
  intros Hrank Hmax n. subst n.
  apply on_trial_result_rank_inv in Hrank
    as (m & raw & level & Hm & Hraw & Hlevel & -> & ->).
  cbn [index time_step new_metric normalized_rank locals_of_report] in *.
  pose proof (searchsorted_back _ _ Hmax) as Hi.
  split_and!.
  - done.
  - by rewrite Hi.
  - rewrite recorded_after_report. unfold inserted.
    by rewrite Hi, take_ge, drop_ge by lia.
  - rewrite (verdict_on_trial_result self trial result m raw level) by done.
    cbn [normalized_rank locals_of_report]. rewrite Hi.
    case_bool_decide as Hcond; split; try done.
    + intros [Hng Hcut]. destruct Hcond as [Hg|Hr]; [done|].
      by apply Qcle_not_lt in Hr.
    + intros _. split.
      * intros Hg. apply Hcond. by left.
      * apply Qcnot_le_lt. intros Hr. apply Hcond. by right.
Qed.

(** X19.  Ties stop nobody.  From an object that has recorded nothing,
    with a rank cutoff that is not negative, a run in which every report
    that carries the metric carries the same value stops no trial,
    whatever the levels and the grace parameters, without the running
    average, and with it when no history is kept yet and every trial
    reports once (the mean is then taken of one value): every value ties
    with the values recorded and is ranked 0.  Means of several values are
    left out: numpy rounds them, and the mean of equal values need not be
    that value. *)
Theorem equal_values_never_stopped self (m : string) (raw : Qc) reports :
  metric self = Some m →
  0 ≤ rank_cutoff self →
  sorted_results self = ∅ →
  (running_average self = true →
   trial_to_results self = ∅ ∧
   NoDup ((λ report : Trial * Result, trial_id report.1) <$> reports)) →
  Forall (λ report, ∀ raw', report.2 !! m = Some raw' → raw' = raw) reports →
  Forall (λ v, v ≠ Some Stopped) (verdicts self reports).
Proof.
  intros Hm Hcut Hsr Hra Hsame.
  set (v0 := sign_adjusted self raw).
  apply (verdicts_never_stopped
    (λ self' reports,
       metric self' = Some m ∧ 0 ≤ rank_cutoff self' ∧
       sign_adjusted self' raw = v0 ∧
       (∀ level, Forall (λ x, x = v0) (recorded self' level)) ∧
       (running_average self' = true →
        NoDup ((λ report : Trial * Result, trial_id report.1) <$> reports) ∧
        Forall (λ report, history self' (trial_id report.1) = []) reports) ∧
       Forall (λ report, ∀ raw', report.2 !! m = Some raw' → raw' = raw) reports));
    last first.
  { split_and!; try done.
    - intros level. unfold recorded. by rewrite Hsr, lookup_empty.
    - intros Hon. destruct (Hra Hon) as [Ht2r Hnd]. split; [done|].
      apply Forall_forall. intros report _. unfold history.
      by rewrite Ht2r, lookup_empty. }
  clear. intros obj [trial result] reports
    (Hm & Hcut & Hsign & Hrec & Hhist & [Hraw Hrest]%Forall_cons).
  cbn [fst snd] in *.
  assert (∀ raw' level,
            result !! m = Some raw' →
            effective_value obj (trial_id trial) raw' = v0 ∧
            np.searchsorted (recorded obj level) v0 = 0%nat) as Hstep.
  { intros raw' level Hraw'. apply Hraw in Hraw'. subst raw'. split.
    - unfold effective_value. rewrite Hsign.
      destruct (running_average obj); [|done].
      destruct (Hhist eq_refl) as [_ [Hnil _]%Forall_cons].
      cbn [fst] in Hnil. rewrite Hnil. apply mean_singleton.
    - apply searchsorted_front. eapply Forall_impl; [apply Hrec|].
      intros x ->. apply Qcle_refl. }
  split.
  - apply verdict_not_stopped. intros m' raw' level Hm' Hraw' Hlevel.
    assert (m' = m) as -> by congruence.
    destruct (Hstep raw' level Hraw') as [Hv Hi].
    right. cbn [normalized_rank locals_of_report]. rewrite Hv, Hi.
    by rewrite rank_quotient_zero.
  - destruct (step_same_parameters obj (trial, result))
      as (Hm' & _ & Hmode' & Hra' & Hcut' & _).
    split_and!; [congruence|by rewrite Hcut'| | | |done].
    + by rewrite (sign_adjusted_same _ obj).
    + intros level.
      destruct (report_cases obj result)
        as [(m' & raw' & level' & Hm2 & Hraw2 & Hlevel2)|[Hnone|(raw' & Hraw2 & Hnone)]].
      * assert (m' = m) as -> by congruence.
        destruct (Hstep raw' level' Hraw2) as [Hv _].
        rewrite (proj1 (step_accepted _ _ _ _ _ _ Hm2 Hraw2 Hlevel2)).
        destruct (decide (level' = level)) as [->|Hne].
        -- rewrite recorded_after_report, Hv, inserted_Permutation.
           constructor; [done|apply Hrec].
        -- rewrite recorded_after_report_ne by done. apply Hrec.
      * rewrite (proj1 (step_rejected obj trial result (or_introl Hnone))).
        apply Hrec.
      * rewrite (proj1 (step_rejected obj trial result (or_intror Hnone))).
        apply Hrec.
    + intros Hon'. assert (running_average obj = true) as Hon by congruence.
      destruct (Hhist Hon) as [Hnd [_ Hnil]%Forall_cons].
      rewrite fmap_cons in Hnd. apply NoDup_cons in Hnd as [Hfresh Hnd].
      cbn [fst] in Hfresh. split; [done|].
      apply Forall_forall. intros report Hin.
      assert (trial_id trial ≠ trial_id report.1) as Hne.
      { intros Heq. apply Hfresh. rewrite Heq.
        by apply (list_elem_of_fmap_2 (λ report : Trial * Result, trial_id report.1)). }
      rewrite Forall_forall in Hnil. specialize (Hnil report Hin).
      destruct (report_cases obj result)
        as [(m' & raw' & level' & Hm2 & Hraw2 & Hlevel2)|[Hnone|(raw' & Hraw2 & Hnone)]].
      * rewrite (proj1 (step_accepted _ _ _ _ _ _ Hm2 Hraw2 Hlevel2)).
        unfold history at 1. simpl. rewrite Hon.
        rewrite lookup_insert_ne by done. exact Hnil.
      * by rewrite (proj1 (step_rejected obj trial result (or_introl Hnone))).
      * by rewrite (proj1 (step_rejected obj trial result (or_intror Hnone))).
Qed.

(** The log record of a stopped call names the trial of the call. *)
Lemma stopping_names_trial self trial result self' r :
  on_trial_result self trial result = stopping self' r →
  log_trial_id r = trial_id trial.
Proof.
  destruct (report_cases self result)
    as [(m & raw & level & Hm & Hraw & Hlevel)|[Hnone|(raw & Hraw & Hnone)]].
  - rewrite (on_trial_result_eq _ _ _ _ _ _ Hm Hraw Hlevel).
    unfold delegation, stopping. case_bool_decide; [done|].
    intros Heq. injection Heq as <- _. reflexivity.
  - unfold on_trial_result.
    by rewrite on_trial_result_rank_KeyError_metric.
  - unfold on_trial_result.
    by erewrite on_trial_result_rank_KeyError_resource.
Qed.

(** X20.  The wrapper does not learn from the wrapped scheduler.  Against
    any scheduler, the outcome of every call of a run is fixed by the
    report of that call and its verdict: a delegated call makes one call
    of the scheduler, on the trial and the result of that very report, and
    returns the answer; a stopped call returns [STOP] after one log record
    that names the trial of the report; a failed call raises and leaves no
    event.  Over the run the scheduler is handed the delegated reports and
    no others, in their order, answers what it answers when asked
    directly on them, and ends in the same state.  The object at the end
    is the same for any two schedulers, of any kind and in any state. *)
Theorem run_follows_verdicts self s reports :
  Forall2
    (λ o rv,
       match rv.2 with
       | Some Delegated =>
           ∃ d, o = (inr d, [Called (Scheduler.on_trial_result rv.1.1 rv.1.2) d])
       | Some Stopped =>
           ∃ r, o = (inr STOP, [Logged r]) ∧ log_trial_id r = trial_id rv.1.1
       | Some (Failed e) => o = (inl e, [])
       | None => False
       end)
    (run self s reports).1.1 (zip reports (verdicts self reports)) ∧
  handed_over (concat (run self s reports).1.1.*2)
    = delegated_reports self reports ∧
  answers_given (concat (run self s reports).1.1.*2)
    = (asked_directly s (delegated_reports self reports)).1 ∧
  (run self s reports).2
    = (asked_directly s (delegated_reports self reports)).2 ∧
  ∀ `{TrialScheduler Sched'} (s' : Sched'),
    (run self s' reports).1.2 = (run self s reports).1.2.
Proof.
  enough (Forall2
    (λ o rv,
       match rv.2 with
       | Some Delegated =>
           ∃ d, o = (inr d, [Called (Scheduler.on_trial_result rv.1.1 rv.1.2) d])
       | Some Stopped =>
           ∃ r, o = (inr STOP, [Logged r]) ∧ log_trial_id r = trial_id rv.1.1
       | Some (Failed e) => o = (inl e, [])
       | None => False
       end)
    (run self s reports).1.1 (zip reports (verdicts self reports)) ∧
    handed_over (concat (run self s reports).1.1.*2)
      = delegated_reports self reports ∧
    answers_given (concat (run self s reports).1.1.*2)
      = (asked_directly s (delegated_reports self reports)).1 ∧
    (run self s reports).2
      = (asked_directly s (delegated_reports self reports)).2)
    as (H1 & H2 & H3 & H4).
  { split_and!; [exact H1|exact H2|exact H3|exact H4|].
    intros. by rewrite !run_object. }
  revert self s. induction reports as [|[trial result] reports IH];
    intros self s; [by split_and!; [constructor|..]|].
  rewrite run_cons. cbn [verdicts delegated_reports zip zip_with fst snd].
  destruct (on_trial_result_shape self trial result)
    as [Heq|[[r Heq]|(key & Heq & _)]].
  - rewrite Heq, exec_delegation. cbn [verdict delegation asked_directly].
    destruct (impl_on_trial_result s trial result) as [d s'] eqn:Ed.
    cbn [fst snd].
    destruct (IH (step self (trial, result)) s') as (IH1 & IH2 & IH3 & IH4).
    destruct (run _ s' reports) as [[os self'] s''].
    destruct (asked_directly s' _) as [ds s3].
    simpl in *. split_and!; [|by f_equal|by f_equal|done].
    constructor; [|done]. simpl. eauto.
  - rewrite Heq, exec_stopping. cbn [verdict stopping].
    destruct (IH (step self (trial, result)) s) as (IH1 & IH2 & IH3 & IH4).
    destruct (run _ s reports) as [[os self'] s''].
    simpl in *. split_and!; [|done..].
    constructor; [|done]. simpl. exists r. split; [done|].
    by apply (stopping_names_trial self trial result _ _ Heq).
  - rewrite Heq. cbn [verdict exec].
    destruct (IH (step self (trial, result)) s) as (IH1 & IH2 & IH3 & IH4).
    destruct (run _ s reports) as [[os self'] s''].
    simpl in *. split_and!; [|done..].
    constructor; [|done]. done.
Qed.
End extremes.

(* ===================================================================== *)
(** * The further properties on the scenario *)
(* ===================================================================== *)

(** The first report of the scenario meets the premises of X4. *)
Lemma normalized_rank_bounds_witness :
  metric (scenario_object true) = Some "loss" ∧
  scenario_result 10 2 !! "loss" = Some (Qc_of_Z 10) ∧
  scenario_result 10 2 !! resource_attr (scenario_object true) = Some (Qc_of_Z 2) ∧
  ∃ loc self',
    on_trial_result_rank (scenario_object true) (scenario_trial 0)
      (scenario_result 10 2) = Ret (loc, self') ∧
    normalized_rank loc < 1.
Proof.
  split_and!; [reflexivity..|].
  destruct (normalized_rank_bounds (scenario_object true) (scenario_trial 0)
              (scenario_result 10 2) "loss" (Qc_of_Z 10) (Qc_of_Z 2))
    as (loc & self' & Hrank & _ & _ & Hlt & _); [reflexivity..|].
  exists loc, self'. split; [exact Hrank|exact Hlt].
Defined.

(** The sixth report of the scenario, after the first five, meets the
    premises of X5. *)
Lemma rank_counts_values_below_witness :
  let now := (run (scenario_object true) scenario_scheduler scenario_first_five).1.2 in
  let loc := locals_of_report now 5 (Qc_of_Z 20) (Qc_of_Z 2) in
  sorted_invariant (scenario_object true) ∧
  on_trial_result_rank now scenario_sixth.1 scenario_sixth.2
    = Ret (loc, after_report now 5 (Qc_of_Z 20) (Qc_of_Z 2)) ∧
  index loc = count_below (recorded now (time_step loc)) (new_metric loc).
Proof.
  intros now loc.
  assert (on_trial_result_rank now scenario_sixth.1 scenario_sixth.2
          = Ret (loc, after_report now 5 (Qc_of_Z 20) (Qc_of_Z 2))) as Hrank.
  { apply (on_trial_result_rank_eq now scenario_sixth.1 scenario_sixth.2
             "loss" (Qc_of_Z 20) (Qc_of_Z 2)); vm_compute; reflexivity. }
  split; [by apply sorted_invariant_empty|]. split; [exact Hrank|].
  apply (rank_counts_values_below (scenario_object true) scenario_scheduler
           scenario_first_five scenario_sixth.1 scenario_sixth.2 loc _
           (sorted_invariant_empty (scenario_object true) eq_refl) Hrank).
Defined.

(** Reports of 10 and of 20 at level 2 to a fresh object meet the
    premises of X6. *)
Lemma better_value_never_ranks_worse_witness :
  let self := scenario_object false in
  let loc1 := locals_of_report self 0 (Qc_of_Z 10) (Qc_of_Z 2) in
  let loc2 := locals_of_report self 1 (Qc_of_Z 20) (Qc_of_Z 2) in
  on_trial_result_rank self (scenario_trial 0) (scenario_result 10 2)
    = Ret (loc1, after_report self 0 (Qc_of_Z 10) (Qc_of_Z 2)) ∧
  on_trial_result_rank self (scenario_trial 1) (scenario_result 20 2)
    = Ret (loc2, after_report self 1 (Qc_of_Z 20) (Qc_of_Z 2)) ∧
  time_step loc1 = time_step loc2 ∧
  StronglySorted Qcle (recorded self (time_step loc1)) ∧
  new_metric loc1 ≤ new_metric loc2 ∧
  (index loc1 ≤ index loc2)%nat.
Proof.
  intros self loc1 loc2.
  assert (on_trial_result_rank self (scenario_trial 0) (scenario_result 10 2)
          = Ret (loc1, after_report self 0 (Qc_of_Z 10) (Qc_of_Z 2))) as Hrank1.
  { apply (on_trial_result_rank_eq self (scenario_trial 0) (scenario_result 10 2)
             "loss" (Qc_of_Z 10) (Qc_of_Z 2)); reflexivity. }
  assert (on_trial_result_rank self (scenario_trial 1) (scenario_result 20 2)
          = Ret (loc2, after_report self 1 (Qc_of_Z 20) (Qc_of_Z 2))) as Hrank2.
  { apply (on_trial_result_rank_eq self (scenario_trial 1) (scenario_result 20 2)
             "loss" (Qc_of_Z 20) (Qc_of_Z 2)); reflexivity. }
  assert (StronglySorted Qcle (recorded self (time_step loc1))) as Hsort.
  { constructor. }
  assert (new_metric loc1 ≤ new_metric loc2) as Hle by (by vm_compute).
  split_and!; [exact Hrank1|exact Hrank2|reflexivity|exact Hsort|exact Hle|].
  apply (better_value_never_ranks_worse self (scenario_trial 0) (scenario_trial 1)
           (scenario_result 10 2) (scenario_result 20 2) loc1 loc2 _ _
           Hrank1 Hrank2 eq_refl Hsort Hle).
Defined.

(** The first report to a fresh object meets the premises of X7: nothing
    is recorded at its level. *)
Lemma minimum_goes_first_witness :
  let self := scenario_object true in
  let loc := locals_of_report self 0 (Qc_of_Z 10) (Qc_of_Z 2) in
  on_trial_result_rank self (scenario_trial 0) (scenario_result 10 2)
    = Ret (loc, after_report self 0 (Qc_of_Z 10) (Qc_of_Z 2)) ∧
  Forall (λ x, new_metric loc ≤ x) (recorded self (time_step loc)) ∧
  index loc = 0%nat.
Proof.
  intros self loc.
  assert (on_trial_result_rank self (scenario_trial 0) (scenario_result 10 2)
          = Ret (loc, after_report self 0 (Qc_of_Z 10) (Qc_of_Z 2))) as Hrank.
  { apply (on_trial_result_rank_eq self (scenario_trial 0) (scenario_result 10 2)
             "loss" (Qc_of_Z 10) (Qc_of_Z 2)); reflexivity. }
  assert (Forall (λ x, new_metric loc ≤ x) (recorded self (time_step loc)))
    as Hmin by constructor.
  split_and!; [exact Hrank|exact Hmin|].
  apply (minimum_goes_first self (scenario_trial 0) (scenario_result 10 2) loc _
           Hrank Hmin).
Defined.

(** An object with [rank_cutoff = 1] meets the premise of X8. *)
Lemma cutoff_at_least_one_is_transparent_witness :
  1 ≤ rank_cutoff scenario_object_cutoff_one ∧
  Forall (λ v, v ≠ Some Stopped)
    (verdicts scenario_object_cutoff_one (scenario_first_five ++ [scenario_sixth])).
Proof.
  split; [by vm_compute|].
  apply (cutoff_at_least_one_is_transparent scenario_object_cutoff_one
           scenario_scheduler (scenario_first_five ++ [scenario_sixth])).
  by vm_compute.
Defined.

(** The first four reports of the scenario, with [grace_population = 5],
    meet the premises of X9. *)
Lemma grace_population_protects_first_reports_witness :
  min_samples_required (scenario_object true) = Some 5%Z ∧
  (∀ level,
     (Z.of_nat (length (recorded (scenario_object true) level)
                + length (take 4 scenario_first_five)) < 5)%Z) ∧
  Forall (λ v, v ≠ Some Stopped)
    (verdicts (scenario_object true) (take 4 scenario_first_five)).
Proof.
  assert (∀ level,
     (Z.of_nat (length (recorded (scenario_object true) level)
                + length (take 4 scenario_first_five)) < 5)%Z) as Hfew.
  { intros level. unfold recorded. simpl. rewrite lookup_empty. simpl. lia. }
  split_and!; [reflexivity|exact Hfew|].
  apply (grace_population_protects_first_reports (scenario_object true)
           (take 4 scenario_first_five) 5 eq_refl Hfew).
Defined.

(** Two reports in either order, with the running average off, meet the
    premises of X10. *)
Lemma recorded_does_not_depend_on_order_witness :
  let a := (scenario_trial 0, scenario_result 20 2) in
  let b := (scenario_trial 1, scenario_result 10 2) in
  sorted_invariant (scenario_object false) ∧
  running_average (scenario_object false) = false ∧
  [a; b] ≡ₚ [b; a] ∧
  recorded (run (scenario_object false) scenario_scheduler [a; b]).1.2 (Qc_of_Z 2)
  = recorded (run (scenario_object false) scenario_scheduler [b; a]).1.2 (Qc_of_Z 2).
Proof.
  intros a b.
  split_and!; [by apply sorted_invariant_empty|reflexivity|apply perm_swap|].
  apply (recorded_does_not_depend_on_order (scenario_object false)
           scenario_scheduler scenario_scheduler [a; b] [b; a] (Qc_of_Z 2)
           (sorted_invariant_empty (scenario_object false) eq_refl) eq_refl
           (perm_swap b a [])).
Defined.

(** The scenario with the running average on meets the premise of X11. *)
Lemma history_after_run_witness :
  running_average (scenario_object true) = true ∧
  history (run (scenario_object true) scenario_scheduler scenario_first_five).1.2 3
  = history (scenario_object true) 3
    ++ reported_by 3 (scenario_object true) scenario_first_five.
Proof.
  split; [reflexivity|].
  apply (history_after_run (scenario_object true) scenario_scheduler
           scenario_first_five 3 eq_refl).
Defined.

(** The scenario under mode "max" meets the premises of X13. *)
Lemma max_mode_is_min_mode_on_negated_values_witness :
  metric (scenario_object_max true) = Some "loss" ∧
  "loss" ≠ resource_attr (scenario_object_max true) ∧
  mode (scenario_object_max true) = "max" ∧ "min" ≠ "max" ∧
  verdicts (set_mode (scenario_object_max true) "min")
    (negated "loss" <$> scenario_first_five)
  = verdicts (scenario_object_max true) scenario_first_five.
Proof.
  assert ("loss" ≠ resource_attr (scenario_object_max true)) as Hkey
    by discriminate.
  assert ("min" ≠ "max") as Hmode by discriminate.
  split_and!; [reflexivity|exact Hkey|reflexivity|exact Hmode|].
  apply (max_mode_is_min_mode_on_negated_values (scenario_object_max true)
           "min" "loss" scenario_first_five eq_refl Hkey eq_refl Hmode).
Defined.

(** Eleven seconds after the last call, with a frequency of ten seconds:
    the premise of X16 holds and the callback is called. *)
Lemma regular_callback_rate_witness :
  let self := util.RegularCallback_init 0 (Qc_of_Z 10) in
  (util.time_last_recent_call self ≤ 11000000)%Z ∧
  (util.RegularCallback_call self 11000000 11000007).1 = true ∧
  util.time_last_recent_call (util.RegularCallback_call self 11000000 11000007).2
  = 11000007%Z.
Proof.
  intros self.
  assert (util.time_last_recent_call self ≤ 11000000)%Z as Hclock by (simpl; lia).
  split_and!; [exact Hclock|reflexivity|].
  apply (proj1 (regular_callback_rate self 11000000 11000007 Hclock)).
  reflexivity.
Defined.

(** The sixth report of the scenario is above the five values recorded:
    the premises of X18. *)
Lemma worst_value_goes_last_witness :
  let self := foldl step (scenario_object true) scenario_first_five in
  let loc := locals_of_report self 5 (Qc_of_Z 20) (Qc_of_Z 2) in
  on_trial_result_rank self scenario_sixth.1 scenario_sixth.2
    = Ret (loc, after_report self 5 (Qc_of_Z 20) (Qc_of_Z 2)) ∧
  Forall (λ x, x < new_metric loc) (recorded self (time_step loc)) ∧
  index loc = length (recorded self (time_step loc)).
Proof.
  intros self loc.
  assert (on_trial_result_rank self scenario_sixth.1 scenario_sixth.2
          = Ret (loc, after_report self 5 (Qc_of_Z 20) (Qc_of_Z 2))) as Hrank.
  { apply (on_trial_result_rank_eq self scenario_sixth.1 scenario_sixth.2
             "loss" (Qc_of_Z 20) (Qc_of_Z 2)); vm_compute; reflexivity. }
  assert (Forall (λ x, x < new_metric loc) (recorded self (time_step loc)))
    as Hmax.
  { apply (bool_decide_eq_true_1 _). vm_compute. reflexivity. }
  split_and!; [exact Hrank|exact Hmax|].
  apply (worst_value_goes_last self scenario_sixth.1 scenario_sixth.2 loc _
           Hrank Hmax).
Defined.

(** The first five reports of the scenario carry the value 10, each from a
    trial of its own: the premises of X19, with the running average. *)
Lemma equal_values_never_stopped_witness :
  metric (scenario_object true) = Some "loss" ∧
  0 ≤ rank_cutoff (scenario_object true) ∧
  sorted_results (scenario_object true) = ∅ ∧
  (running_average (scenario_object true) = true →
   trial_to_results (scenario_object true) = ∅ ∧
   NoDup ((λ report : Trial * Result, trial_id report.1) <$> scenario_first_five)) ∧
  Forall (λ report, ∀ raw', report.2 !! "loss" = Some raw' → raw' = Qc_of_Z 10)
    scenario_first_five ∧
  Forall (λ v, v ≠ Some Stopped) (verdicts (scenario_object true) scenario_first_five).
Proof.
  assert (0 ≤ rank_cutoff (scenario_object true)) as Hcut by (by vm_compute).
  assert (running_average (scenario_object true) = true →
          trial_to_results (scenario_object true) = ∅ ∧
          NoDup ((λ report : Trial * Result, trial_id report.1)
                   <$> scenario_first_five)) as Hra.
  { intros _. split; [reflexivity|].
    apply (bool_decide_eq_true_1 _). vm_compute. reflexivity. }
  assert (Forall (λ report : Trial * Result,
                    ∀ raw', report.2 !! "loss" = Some raw' → raw' = Qc_of_Z 10)
            scenario_first_five) as Hsame.
  { repeat constructor; intros raw' Hraw; vm_compute in Hraw;
      injection Hraw as <-; reflexivity. }
  split_and!; [reflexivity|exact Hcut|reflexivity|exact Hra|exact Hsame|].
  apply (equal_values_never_stopped (scenario_object true) "loss" (Qc_of_Z 10)
           scenario_first_five eq_refl Hcut eq_refl Hra Hsame).
Defined.
